(** * Study-Buddy: the quiz and game engines

    A shallow embedding of the algorithmic core of the Study-Buddy
    front end:

    - [KnowledgeDash.tsx]: the pair mining done by [generateQuestion], the
      mismatch redraw loop, and the score / streak / lives / timer state
      machine ([startGame], [handleAnswer], the countdown effect);
    - [Flashcard.tsx] (the [MemoryGame] component): the game-specific pair
      extraction of [initGame] and the tile selection of [handleCardClick];
    - [ExamView.tsx]: the practice answer state and the show-answers toggle;
    - the application shell: [DAILY_LIMIT], [checkLimit], [incrementUsage]
      and the initialiser of [dailyUsage].

    React state is modelled by explicit state passing: a component is a
    record of its [useState] cells, an event handler is a function on that
    record, and a callback handed to [setTimeout] is kept in the record
    together with the values its closure captured, until the event that
    fires it. *)

From Stdlib Require Import ZArith String Ascii Lia.
From stdpp Require Import gmap list.

Local Open Scope Z_scope.

(** ** JavaScript strings *)

Module JS.

(** A JavaScript string is a sequence of UTF-16 code units, here a
    [list N]; [length], [substring], [trim] and a regular expression
    without the [u] flag all work on code units. *)

(** An ASCII literal as a JavaScript string. *)
Definition js (s : string) : list N :=
  List.map N_of_ascii (list_ascii_of_string s).

(** The character class of the regular expression [/[:\-–—]/]: colon,
    hyphen-minus, en dash (U+2013) and em dash (U+2014). *)
Definition isDelim (c : N) : bool :=
  ((c =? 58) || (c =? 45) || (c =? 8211) || (c =? 8212))%N.

(** [String.prototype.split] with that regular expression: the string is
    cut at every delimiter; a string with [k] delimiters gives [k + 1]
    parts, the empty string gives one empty part. *)
Fixpoint split (s : list N) : list (list N) :=
  match s with
  | [] => [[]]
  | c :: s' =>
      if isDelim c then [] :: split s'
      else match split s' with
           | p :: ps => (c :: p) :: ps
           | [] => [[c]]
           end
  end.

(** White space and line terminators, as [String.prototype.trim] strips
    them. *)
Definition isSpace (c : N) : bool :=
  ((c =? 9) || (c =? 10) || (c =? 11) || (c =? 12) || (c =? 13) || (c =? 32)
   || (c =? 160) || (c =? 5760) || ((8192 <=? c) && (c <=? 8202))
   || (c =? 8232) || (c =? 8233) || (c =? 8239) || (c =? 8287)
   || (c =? 12288) || (c =? 65279))%N.

Fixpoint trimStart (s : list N) : list N :=
  match s with
  | [] => []
  | c :: s' => if isSpace c then trimStart s' else s
  end.

Definition trimEnd (s : list N) : list N := rev (trimStart (rev s)).

Definition trim (s : list N) : list N := trimEnd (trimStart s).

(** The text before the first delimiter, and the text after it. *)
Fixpoint beforeDelim (s : list N) : list N :=
  match s with
  | [] => []
  | c :: s' => if isDelim c then [] else c :: beforeDelim s'
  end.

Fixpoint afterDelim (s : list N) : list N :=
  match s with
  | [] => []
  | c :: s' => if isDelim c then s' else afterDelim s'
  end.

Definition hasDelim (s : list N) : bool := existsb isDelim s.

(** [s.substring(0, n)]. *)
Definition substring0 (n : nat) (s : list N) : list N := take n s.

(** Truthiness of a string: only the empty string is falsy. *)
Definition truthy (s : list N) : bool :=
  match s with [] => false | _ => true end.

End JS.

Import JS.

(** ** Shared input types ([types.ts]) *)

Record StudyNote := { heading : list N; points : list (list N) }.
Record Flashcard := { front : list N; back : list N }.

(** The [{ term, def }] objects both games collect. *)
Record Pair := { term : list N; def : list N }.

(** ** Knowledge Dash ([KnowledgeDash.tsx]) *)

Module Dash.

Record Props := { flashcards : list Flashcard; clean_notes : list StudyNote }.

Record Question :=
  { q_term : list N; definition : list N; isCorrect : bool }.

(** The body of the inner [forEach] of [generateQuestion]: what one bullet
    point pushes onto [allPairs]. *)
Definition pointPairs (p : list N) : list Pair :=
  match split p with
  | a :: b :: _ => [ {| term := trim a; def := trim b |} ]
  | _ => []
  end.

(** [allPairs] as [generateQuestion] builds it: flashcards first, then the
    bullet points of every note, in order. *)
Definition allPairs (data : Props) : list Pair :=
  List.map (fun f => {| term := front f; def := back f |}) (flashcards data)
  ++ flat_map (fun n => flat_map pointPairs (points n)) (clean_notes data).

(** *** Randomness

    [Math.random()] returns a double in the interval [0, 1). The source of
    randomness is an oracle [rnd : nat -> Z]: the [i]-th call returns the
    dyadic rational [random rnd i / 2^53], and products with an array
    length are taken exactly. *)

Definition random (rnd : nat -> Z) (i : nat) : Z := rnd i mod 2 ^ 53.

(** [Math.random() > 0.5] *)
Definition overHalf (rnd : nat -> Z) (i : nat) : bool :=
  2 ^ 53 <? 2 * random rnd i.

(** [Math.floor(Math.random() * len)] *)
Definition randomIndex (rnd : nat -> Z) (i : nat) (len : nat) : nat :=
  Z.to_nat (random rnd i * Z.of_nat len / 2 ^ 53).

(** What running a piece of code gives: it returns, it throws (a
    [TypeError] on a property of [undefined]), or it is still running when
    the fuel is spent. *)
Inductive result (A : Type) : Type :=
| Returned (a : A)
| Thrown
| Running.
Arguments Returned {A} a.
Arguments Thrown {A}.
Arguments Running {A}.

Definition bind {A B} (r : result A) (k : A -> result B) : result B :=
  match r with
  | Returned a => k a
  | Thrown => Thrown
  | Running => Running
  end.

(** [allPairs[Math.floor(Math.random() * allPairs.length)]], read for its
    [term] right after: an index out of range would throw. *)
Definition draw (pairs : list Pair) (rnd : nat -> Z) (i : nat) : result Pair :=
  match pairs !! randomIndex rnd i (length pairs) with
  | Some p => Returned p
  | None => Thrown
  end.

(** The loop [while (pairB.term === pairA.term) pairB = allPairs[...]];
    [k] is the number of calls of [Math.random] made so far, [fuel] bounds
    the number of iterations. *)
Fixpoint redraw (fuel : nat) (pairs : list Pair) (rnd : nat -> Z) (k : nat)
    (pairA pairB : Pair) : result Pair :=
  if decide (term pairB = term pairA) then
    match fuel with
    | O => Running
    | S fuel' =>
        bind (draw pairs rnd k) (fun pairB' =>
          redraw fuel' pairs rnd (S k) pairA pairB')
    end
  else Returned pairB.

(** [generateQuestion]; [None] is its [null]. *)
Definition generateQuestion (fuel : nat) (data : Props) (rnd : nat -> Z)
    : result (option Question) :=
  let pairs := allPairs data in
  if (length pairs <? 2)%nat then Returned None
  else
    let isCorrectMatch := overHalf rnd 0 in
    bind (draw pairs rnd 1) (fun pairA =>
      if isCorrectMatch then
        Returned (Some {| q_term := term pairA; definition := def pairA;
                          isCorrect := true |})
      else
        bind (draw pairs rnd 2) (fun pairB0 =>
          bind (redraw fuel pairs rnd 3 pairA pairB0) (fun pairB =>
            Returned (Some {| q_term := term pairA; definition := def pairB;
                              isCorrect := false |}))))%nat.

(** [generateQuestion] returns [q]: some amount of fuel is enough. *)
Definition generates (data : Props) (rnd : nat -> Z) (q : option Question)
    : Prop :=
  exists fuel, generateQuestion fuel data rnd = Returned q.

(** *** The round state *)

Inductive GameState := idle | playing | ended.
Inductive Feedback := correct | wrong.

(** The callback [handleAnswer] hands to [setTimeout], as the values its
    closure captured: [lives], [answer] and [currentQuestion] of the render
    in which the answer was given. *)
Record Timeout :=
  { t_lives : Z; t_answer : bool; t_question : Question }.

Record State :=
  { gameState : GameState;
    currentQuestion : option Question;
    score : Z;
    streak : Z;
    lives : Z;
    timeLeft : Z;
    feedback : option Feedback;
    timeouts : list Timeout }.

Definition setGameState (g : GameState) (st : State) : State :=
  {| gameState := g; currentQuestion := currentQuestion st;
     score := score st; streak := streak st; lives := lives st;
     timeLeft := timeLeft st; feedback := feedback st;
     timeouts := timeouts st |}.

Definition setCurrentQuestion (q : option Question) (st : State) : State :=
  {| gameState := gameState st; currentQuestion := q;
     score := score st; streak := streak st; lives := lives st;
     timeLeft := timeLeft st; feedback := feedback st;
     timeouts := timeouts st |}.

Definition setScore (f : Z -> Z) (st : State) : State :=
  {| gameState := gameState st; currentQuestion := currentQuestion st;
     score := f (score st); streak := streak st; lives := lives st;
     timeLeft := timeLeft st; feedback := feedback st;
     timeouts := timeouts st |}.

Definition setStreak (f : Z -> Z) (st : State) : State :=
  {| gameState := gameState st; currentQuestion := currentQuestion st;
     score := score st; streak := f (streak st); lives := lives st;
     timeLeft := timeLeft st; feedback := feedback st;
     timeouts := timeouts st |}.

Definition setLives (f : Z -> Z) (st : State) : State :=
  {| gameState := gameState st; currentQuestion := currentQuestion st;
     score := score st; streak := streak st; lives := f (lives st);
     timeLeft := timeLeft st; feedback := feedback st;
     timeouts := timeouts st |}.

Definition setTimeLeft (f : Z -> Z) (st : State) : State :=
  {| gameState := gameState st; currentQuestion := currentQuestion st;
     score := score st; streak := streak st; lives := lives st;
     timeLeft := f (timeLeft st); feedback := feedback st;
     timeouts := timeouts st |}.

Definition setFeedback (fb : option Feedback) (st : State) : State :=
  {| gameState := gameState st; currentQuestion := currentQuestion st;
     score := score st; streak := streak st; lives := lives st;
     timeLeft := timeLeft st; feedback := fb;
     timeouts := timeouts st |}.

Definition setTimeouts (ts : list Timeout) (st : State) : State :=
  {| gameState := gameState st; currentQuestion := currentQuestion st;
     score := score st; streak := streak st; lives := lives st;
     timeLeft := timeLeft st; feedback := feedback st;
     timeouts := ts |}.

(** [setTimeout(callback, 600)] *)
Definition setTimeout (c : Timeout) (st : State) : State :=
  setTimeouts (timeouts st ++ [c]) st.

(** The state of the first render. *)
Definition initial : State :=
  {| gameState := idle; currentQuestion := None; score := 0; streak := 0;
     lives := 3; timeLeft := 30; feedback := None; timeouts := [] |}.

(** *** The handlers *)

Definition startGame (fuel : nat) (data : Props) (rnd : nat -> Z) (st : State)
    : result State :=
  let st := setScore (fun _ => 0) st in
  let st := setStreak (fun _ => 0) st in
  let st := setLives (fun _ => 3) st in
  let st := setTimeLeft (fun _ => 30) st in
  let st := setGameState playing st in
  bind (generateQuestion fuel data rnd) (fun q =>
    Returned (setCurrentQuestion q st)).

Definition handleAnswer (answer : bool) (st : State) : State :=
  match currentQuestion st, feedback st with
  | None, _ => st
  | Some _, Some _ => st
  | Some q, None =>
      let st' :=
        if Bool.eqb answer (isCorrect q) then
          let st1 := setScore (fun prev => prev + 10 * (streak st + 1)) st in
          let st2 := setStreak (fun prev => prev + 1) st1 in
          setFeedback (Some correct) st2
        else
          let st1 := setLives (fun prev => prev - 1) st in
          let st2 := setStreak (fun _ => 0) st1 in
          setFeedback (Some wrong) st2 in
      setTimeout {| t_lives := lives st; t_answer := answer;
                    t_question := q |} st'
  end.

(** The body of the callback of [setTimeout] in [handleAnswer]. *)
Definition settleCallback (fuel : nat) (data : Props) (rnd : nat -> Z)
    (c : Timeout) (st : State) : result State :=
  let st := setFeedback None st in
  if t_lives c <=?
       (if Bool.eqb (t_answer c) (isCorrect (t_question c)) then 0 else 1)
  then Returned (setGameState ended st)
  else
    bind (generateQuestion fuel data rnd) (fun q =>
      Returned (setCurrentQuestion q st)).

(** The settle delay expires: the oldest pending callback runs. *)
Definition settle (fuel : nat) (data : Props) (rnd : nat -> Z) (st : State)
    : result State :=
  match timeouts st with
  | [] => Returned st
  | c :: cs => settleCallback fuel data rnd c (setTimeouts cs st)
  end.

(** One second passes. The countdown effect installs its interval only
    while [gameState === 'playing' && timeLeft > 0]; its callback is the
    updater given to [setTimeLeft]. *)
Definition tick (st : State) : State :=
  match gameState st with
  | playing =>
      if 0 <? timeLeft st then
        if timeLeft st <=? 1
        then setTimeLeft (fun _ => 0) (setGameState ended st)
        else setTimeLeft (fun prev => prev - 1) st
      else st
  | _ => st
  end.

(** *** Runs of the component *)

Inductive Event :=
| Start (rnd : nat -> Z)
| Answer (answer : bool)
| Settle (rnd : nat -> Z)
| Tick.

Definition step (fuel : nat) (data : Props) (ev : Event) (st : State)
    : result State :=
  match ev with
  | Start rnd => startGame fuel data rnd st
  | Answer a => Returned (handleAnswer a st)
  | Settle rnd => settle fuel data rnd st
  | Tick => Returned (tick st)
  end.

Fixpoint run (fuel : nat) (data : Props) (evs : list Event) (st : State)
    : result State :=
  match evs with
  | [] => Returned st
  | ev :: evs' => bind (step fuel data ev st) (run fuel data evs')
  end.

(** The states the component can be in: those some run from the first
    render ends in. *)
Definition reachable (data : Props) (st : State) : Prop :=
  exists fuel evs, run fuel data evs initial = Returned st.

(** While the round is being played there is time left. *)
Definition has_time (st : State) : Prop :=
  gameState st = playing -> 0 < timeLeft st.

End Dash.

(** ** Concept Matcher (the [MemoryGame] component of [Flashcard.tsx]) *)

Module Memory.

(** *** The game-specific pair extraction of [initGame] *)

(** The body of the inner [forEach]: what one bullet point pushes onto
    [pairs]. *)
Definition pointPairs (point : list N) : list Pair :=
  match split point with
  | a :: b :: _ =>
      if (length (trim a) <? 40)%nat && (5 <? length (trim b))%nat then
        [ {| term := trim a;
             def := substring0 100 (trim b)
                    ++ (if (100 <? length (trim b))%nat then js "..." else [])
          |} ]
      else []
  | _ => []
  end.

Definition qualifying (notes : list StudyNote) : list Pair :=
  flat_map (fun note => flat_map pointPairs (points note)) notes.

(** The body of the fallback [forEach] over [notes.slice(0, 4)]. *)
Definition fallbackPair (note : StudyNote) : list Pair :=
  match points note with
  | p0 :: _ => [ {| term := heading note; def := substring0 100 p0 |} ]
  | [] => []
  end.

(** [pairs] as [initGame] holds it just before the shuffle. *)
Definition extractPairs (notes : list StudyNote) : list Pair :=
  let pairs := qualifying notes in
  if (length pairs <? 3)%nat
  then pairs ++ flat_map fallbackPair (take 4 notes)
  else pairs.

(** *** Tiles and selection *)

Inductive CardType := termCard | definitionCard.

Record GameCard :=
  { id : nat;
    content : list N;
    type : CardType;
    pairId : nat;
    isFlipped : bool;
    isMatched : bool }.

(** The two callbacks [handleCardClick] hands to [setTimeout], with the
    cards their closures captured. *)
Inductive Timeout :=
| MatchFound (first second : GameCard)
| NoMatch.

Record State :=
  { cards : list GameCard;
    flippedCards : list nat;
    matches : Z;
    moves : Z;
    timeouts : list Timeout }.

Definition setCards (cs : list GameCard) (st : State) : State :=
  {| cards := cs; flippedCards := flippedCards st; matches := matches st;
     moves := moves st; timeouts := timeouts st |}.

Definition setFlippedCards (fl : list nat) (st : State) : State :=
  {| cards := cards st; flippedCards := fl; matches := matches st;
     moves := moves st; timeouts := timeouts st |}.

Definition setMatches (f : Z -> Z) (st : State) : State :=
  {| cards := cards st; flippedCards := flippedCards st;
     matches := f (matches st); moves := moves st; timeouts := timeouts st |}.

Definition setMoves (f : Z -> Z) (st : State) : State :=
  {| cards := cards st; flippedCards := flippedCards st;
     matches := matches st; moves := f (moves st); timeouts := timeouts st |}.

Definition setTimeout (t : Timeout) (st : State) : State :=
  {| cards := cards st; flippedCards := flippedCards st;
     matches := matches st; moves := moves st;
     timeouts := timeouts st ++ [t] |}.

(** The [useState] initial values. *)
Definition initial : State :=
  {| cards := []; flippedCards := []; matches := 0; moves := 0;
     timeouts := [] |}.

(** [cards.find(c => c.id === i)] *)
Definition findCard (cs : list GameCard) (i : nat) : option GameCard :=
  List.find (fun c => Nat.eqb (id c) i) cs.

(** The two tiles [selectedPairs.forEach] pushes for the pair at [idx]. *)
Definition pairCards (idx : nat) (pair : Pair) : list GameCard :=
  [ {| id := idx * 2; content := term pair; type := termCard;
       pairId := idx; isFlipped := false; isMatched := false |};
    {| id := idx * 2 + 1; content := def pair; type := definitionCard;
       pairId := idx; isFlipped := false; isMatched := false |} ]%nat.

(** [initGame]. [Array.prototype.sort] with the comparator
    [() => 0.5 - Math.random()] rearranges its array in a way the language
    leaves open; the two rearrangements are the parameters [sortPairs] and
    [sortCards]. Pending timeouts are not cleared. *)
Definition initGame (notes : list StudyNote)
    (sortPairs : list Pair -> list Pair)
    (sortCards : list GameCard -> list GameCard) (st : State) : State :=
  let selectedPairs := take 4 (sortPairs (extractPairs notes)) in
  let gameCards := concat (imap pairCards selectedPairs) in
  let st := setCards (sortCards gameCards) st in
  let st := setFlippedCards [] st in
  let st := setMatches (fun _ => 0) st in
  setMoves (fun _ => 0) st.

(** [handleCardClick]. When one of the two [find] calls gives [undefined]
    the handler throws at [first.pairId]: the state updates it has already
    queued stay, and no timeout is set. *)
Definition handleCardClick (i : nat) (st : State) : State :=
  if (length (flippedCards st) =? 2)%nat
     || from_option isMatched false (findCard (cards st) i)
     || bool_decide (i ∈ flippedCards st)
  then st
  else
    let newFlipped := flippedCards st ++ [i] in
    let st1 := setFlippedCards newFlipped st in
    if (length newFlipped =? 2)%nat then
      let st2 := setMoves (fun prev => prev + 1) st1 in
      match newFlipped !! 0%nat ≫= findCard (cards st),
            newFlipped !! 1%nat ≫= findCard (cards st) with
      | Some first, Some second =>
          if (pairId first =? pairId second)%nat
          then setTimeout (MatchFound first second) st2
          else setTimeout NoMatch st2
      | _, _ => st2
      end
    else st1.

Definition markMatched (c : GameCard) : GameCard :=
  {| id := id c; content := content c; type := type c; pairId := pairId c;
     isFlipped := isFlipped c; isMatched := true |}.

(** The body of a callback of [setTimeout]. *)
Definition timeoutCallback (t : Timeout) (st : State) : State :=
  match t with
  | MatchFound first second =>
      let st := setCards
        (List.map (fun c =>
           if (id c =? id first)%nat || (id c =? id second)%nat
           then markMatched c else c) (cards st)) st in
      let st := setFlippedCards [] st in
      setMatches (fun prev => prev + 1) st
  | NoMatch => setFlippedCards [] st
  end.

(** The [n]-th pending timeout fires. *)
Definition fire (n : nat) (st : State) : State :=
  match timeouts st !! n with
  | Some t =>
      timeoutCallback t
        {| cards := cards st; flippedCards := flippedCards st;
           matches := matches st; moves := moves st;
           timeouts := delete n (timeouts st) |}
  | None => st
  end.

(** [matches > 0 && matches === cards.length / 2] *)
Definition isGameOver (st : State) : bool :=
  (0 <? matches st) && (2 * matches st =? Z.of_nat (length (cards st))).

Inductive Event :=
| Init (sortPairs : list Pair -> list Pair)
       (sortCards : list GameCard -> list GameCard)
| Click (i : nat)
| Fire (n : nat).

Definition step (notes : list StudyNote) (ev : Event) (st : State) : State :=
  match ev with
  | Init sp sc => initGame notes sp sc st
  | Click i => handleCardClick i st
  | Fire n => fire n st
  end.

(** The states of the component: [useEffect] calls [initGame] after the
    first render, then events follow in any order. *)
Inductive reachable (notes : list StudyNote) : State -> Prop :=
| reachable_initial : reachable notes initial
| reachable_step st ev :
    reachable notes st -> reachable notes (step notes ev st).

End Memory.

(** ** Interactive Practice ([ExamView.tsx]) *)

Module Exam.

Record MCQQuestion :=
  { question : list N; options : list (list N); correct_answer : list N }.

(** The four [useState] cells; a [Record<number, T>] is a finite map from
    question indices. *)
Record State :=
  { selectedOptions : gmap nat (list N);
    shortAnswers : gmap nat (list N);
    revealedShort : gmap nat bool;
    showOverallAnswers : bool }.

Definition initial : State :=
  {| selectedOptions := ∅; shortAnswers := ∅; revealedShort := ∅;
     showOverallAnswers := false |}.

(** [handleOptionClick]; reading [questions.mcq[qIdx].correct_answer]
    throws for an index with no question, before any state is set. *)
Definition handleOptionClick (mcq : list MCQQuestion) (qIdx : nat)
    (option : list N) (st : State) : State :=
  if showOverallAnswers st then st
  else
    match mcq !! qIdx with
    | None => st
    | Some _ =>
        {| selectedOptions := <[qIdx := option]> (selectedOptions st);
           shortAnswers := shortAnswers st;
           revealedShort := revealedShort st;
           showOverallAnswers := showOverallAnswers st |}
    end.

(** Clicks on options, one after the other. *)
Definition clickOptions (mcq : list MCQQuestion)
    (clicks : list (nat * list N)) (st : State) : State :=
  foldl (fun s c => handleOptionClick mcq c.1 c.2 s) st clicks.

(** The [onChange] handler of a short-answer text area. *)
Definition handleShortChange (idx : nat) (value : list N) (st : State)
    : State :=
  {| selectedOptions := selectedOptions st;
     shortAnswers := <[idx := value]> (shortAnswers st);
     revealedShort := revealedShort st;
     showOverallAnswers := showOverallAnswers st |}.

Definition toggleShortReveal (qIdx : nat) (st : State) : State :=
  {| selectedOptions := selectedOptions st;
     shortAnswers := shortAnswers st;
     revealedShort :=
       <[qIdx := negb (default false (revealedShort st !! qIdx))]>
         (revealedShort st);
     showOverallAnswers := showOverallAnswers st |}.

Definition resetPractice (st : State) : State := initial.

(** The [onClick] handler of the Show Answers / Hide Answers button. *)
Definition toggleShowAnswers (st : State) : State :=
  {| selectedOptions := selectedOptions st;
     shortAnswers := shortAnswers st;
     revealedShort := revealedShort st;
     showOverallAnswers := negb (showOverallAnswers st) |}.

(** *** What the render computes from the state *)

(** [!!selected || showOverallAnswers] *)
Definition hasAnswered (idx : nat) (st : State) : bool :=
  from_option truthy false (selectedOptions st !! idx)
  || showOverallAnswers st.

(** [hasAnswered && !showOverallAnswers]: the card shows its verdict and
    its options are disabled. *)
Definition showsVerdict (idx : nat) (st : State) : bool :=
  hasAnswered idx st && negb (showOverallAnswers st).

(** [revealedShort[idx] || showOverallAnswers] *)
Definition isRevealed (idx : nat) (st : State) : bool :=
  default false (revealedShort st !! idx) || showOverallAnswers st.

Inductive Color := neutral | green | red.

(** [bgColor] of the option [opt] of the question [q] at index [idx]. *)
Definition bgColor (idx : nat) (q : MCQQuestion) (opt : list N) (st : State)
    : Color :=
  let selected := selectedOptions st !! idx in
  let isCorrect := bool_decide (selected = Some (correct_answer q)) in
  if showOverallAnswers st then
    if bool_decide (opt = correct_answer q) then green else neutral
  else if bool_decide (selected = Some opt) then
    if isCorrect then green else red
  else neutral.

End Exam.

(** ** Daily usage (the application shell) *)

Module App.

Definition DAILY_LIMIT : Z := 5.

Inductive AppState := IDLE | LOADING | RESULT | ERROR.

(** The object kept under [study_buddy_usage]; [lastDate] is a
    [Date.prototype.toDateString] string. *)
Record Usage := { count : Z; lastDate : list N }.

(** The cells of [App] that the limit check reads and writes. *)
Record State :=
  { state : AppState; error : option (list N); dailyUsage : Usage }.

(** The lazy initialiser of [dailyUsage]: [saved] is the parsed content of
    the store, [None] when the key is absent. *)
Definition initDailyUsage (saved : option Usage) (today : list N) : Usage :=
  match saved with
  | Some parsed =>
      if bool_decide (lastDate parsed = today) then parsed
      else {| count := 0; lastDate := today |}
  | None => {| count := 0; lastDate := today |}
  end.

Definition limitMessage : list N :=
  js "You've reached your daily limit of 5 study sessions. You're doing great! Take a break and come back tomorrow.".

(** [checkLimit]: its return value and the state it leaves. *)
Definition checkLimit (today : list N) (st : State) : bool * State :=
  if bool_decide (lastDate (dailyUsage st) = today)
     && (DAILY_LIMIT <=? count (dailyUsage st))
  then (false, {| state := ERROR; error := Some limitMessage;
                  dailyUsage := dailyUsage st |})
  else (true, st).

(** The updater [incrementUsage] gives to [setDailyUsage]. *)
Definition incrementUsage (today : list N) (prev : Usage) : Usage :=
  {| count := if bool_decide (lastDate prev = today) then count prev + 1
              else 1;
     lastDate := today |}.


End App.

(** ** The extraction rules as the specification words them *)

Module Spec.

(** "Split on the first occurrence of a delimiter; the text before the
    delimiter is the term, the text after is the definition; emit a pair
    only if both resulting segments, after trimming whitespace, are
    non-empty." *)
Definition pointPairs (p : list N) : list Pair :=
  if hasDelim p
     && truthy (trim (beforeDelim p)) && truthy (trim (afterDelim p))
  then [ {| term := trim (beforeDelim p); def := trim (afterDelim p) |} ]
  else [].

(** "Truncates definitions to 100 characters with an ellipsis marker." *)
Definition truncate (d : list N) : list N :=
  if (100 <? length d)%nat then substring0 100 d ++ js "..." else d.

(** The game-specific variant: a pair of the extractor above is kept
    unless its term exceeds 40 characters. *)
Definition gamePointPairs (p : list N) : list Pair :=
  flat_map (fun pr =>
    if (length (term pr) <=? 40)%nat
    then [ {| term := term pr; def := truncate (def pr) |} ]
    else []) (pointPairs p).

(** "Falls back to [{term: note.heading, definition: note.points[0]}]". *)
Definition fallbackPair (note : StudyNote) : list Pair :=
  match points note with
  | p0 :: _ => [ {| term := heading note; def := p0 |} ]
  | [] => []
  end.

End Spec.

(** ** Sample inputs *)

Module Sample.

(** An oracle that returns the listed numerators, then zeros. *)
Definition oracle (l : list Z) : nat -> Z := fun i => nth i l 0.

(** The numerator of the fraction [a / b] over [2^53]. *)
Definition frac (a b : Z) : Z := a * 2 ^ 53 / b.

(** The pool [{A,1}, {B,2}, {C,3}], given as three flashcards. *)
Definition abc : Dash.Props :=
  {| Dash.flashcards :=
       [ {| front := js "A"; back := js "1" |};
         {| front := js "B"; back := js "2" |};
         {| front := js "C"; back := js "3" |} ];
     Dash.clean_notes := [] |}.

(** Notes whose two bullet points define the same term. *)
Definition sameTerm : Dash.Props :=
  {| Dash.flashcards := [];
     Dash.clean_notes :=
       [ {| heading := js "Cell division";
            points := [ js "Mitosis: division of a cell nucleus";
                        js "Mitosis: has four phases" ] |} ] |}.

Definition questionA : Dash.Question :=
  {| Dash.q_term := js "A"; Dash.definition := js "1";
     Dash.isCorrect := true |}.

(** An oracle whose first number exceeds 0.5 and whose second picks the
    first pair: on [abc], [generateQuestion] returns [questionA]. *)
Definition pickA : nat -> Z := oracle [frac 3 4; 0].

(** A round in progress on [questionA]. *)
Definition round (score streak lives timeLeft : Z) : Dash.State :=
  {| Dash.gameState := Dash.playing;
     Dash.currentQuestion := Some questionA;
     Dash.score := score; Dash.streak := streak; Dash.lives := lives;
     Dash.timeLeft := timeLeft; Dash.feedback := None;
     Dash.timeouts := [] |}.

(** Notes with four bullet points of the form "term: definition". *)
Definition biology : list StudyNote :=
  [ {| heading := js "Biology";
       points := [ js "Mitosis: division of a cell nucleus";
                   js "Osmosis - movement of water";
                   js "Enzyme: a biological catalyst";
                   js "Ribosome: makes proteins in cells" ] |} ].

(** The Concept Matcher on [biology], tiles left in the order they were
    built, after a click on tile 0. *)
Definition oneSelected : Memory.State :=
  Memory.step biology (Memory.Click 0)
    (Memory.step biology (Memory.Init id id) Memory.initial).

(** A practice session with one multiple-choice question, answered. *)
Definition mcq1 : list Exam.MCQQuestion :=
  [ {| Exam.question := js "2 + 2 = ?";
       Exam.options := [ js "3"; js "4" ];
       Exam.correct_answer := js "4" |} ].

Definition answered : Exam.State :=
  Exam.handleOptionClick mcq1 0 (js "3") Exam.initial.

(** Two [toDateString] dates and an application at rest whose stored
    usage is [u]. *)
Definition today : list N := js "Tue Nov 03 2026".
Definition yesterday : list N := js "Mon Nov 02 2026".

Definition atRest (u : App.Usage) : App.State :=
  {| App.state := App.IDLE; App.error := None; App.dailyUsage := u |}.

End Sample.

(** ** What the renders offer *)

(** The Knowledge Dash render shows the start button in the [idle] and
    [ended] views and the two answer buttons in the playing view; timers
    fire in any view. *)
Module DashUI.

Import Dash.

Definition offered (st : State) (ev : Event) : bool :=
  match ev, gameState st with
  | Start _, playing => false
  | Start _, _ => true
  | Answer _, playing => true
  | Answer _, _ => false
  | Settle _, _ => true
  | Tick, _ => true
  end.

(** The states a player can bring the component to. *)
Inductive reachable (data : Props) : State -> Prop :=
| reachable_initial : reachable data initial
| reachable_step st ev fuel st' :
    reachable data st ->
    offered st ev = true ->
    step fuel data ev st = Returned st' ->
    reachable data st'.

(** A run made of offered events only; an event that is not offered
    stops it. *)
Fixpoint run (fuel : nat) (data : Props) (evs : list Event) (st : State)
    : result State :=
  match evs with
  | [] => Returned st
  | ev :: evs' =>
      if offered st ev
      then bind (step fuel data ev st) (run fuel data evs')
      else Thrown
  end.

(** What every run keeps, whatever the order of its events. *)
Definition sound (st : State) : Prop :=
  0 <= timeLeft st <= 30
  /\ 0 <= streak st
  /\ 5 * streak st * (streak st + 1) <= score st
  /\ (10 | score st)
  /\ lives st <= 3
  /\ (feedback st = None <-> timeouts st = [])
  /\ (length (timeouts st) <= 1)%nat.

(** The lives left once the answer a pending callback belongs to has been
    counted. *)
Definition livesAfter (c : Timeout) : Z :=
  t_lives c
  - (if Bool.eqb (t_answer c) (isCorrect (t_question c)) then 0 else 1).

(** What the runs a player can make keep in addition. *)
Definition playable (st : State) : Prop :=
  0 <= lives st
  /\ (gameState st = playing -> feedback st = None -> 0 < lives st)
  /\ (forall c, c ∈ timeouts st -> lives st = livesAfter c \/ 0 < lives st).

End DashUI.

(** The practice session: its events, and which of them the render lets
    through. An option button of question [idx] is rendered for each of
    its options and carries [disabled = hasAnswered && !showOverallAnswers]. *)
Module ExamUI.

Import Exam.

Inductive Event :=
| ClickOption (idx : nat) (opt : list N)
| ChangeShort (idx : nat) (value : list N)
| ToggleShort (idx : nat)
| Reset
| ToggleShow.

Definition offered (mcq : list MCQQuestion) (st : State) (ev : Event) : bool :=
  match ev with
  | ClickOption idx opt =>
      match mcq !! idx with
      | Some q => bool_decide (opt ∈ options q) && negb (showsVerdict idx st)
      | None => false
      end
  | _ => true
  end.

Definition step (mcq : list MCQQuestion) (ev : Event) (st : State) : State :=
  match ev with
  | ClickOption idx opt => handleOptionClick mcq idx opt st
  | ChangeShort idx value => handleShortChange idx value st
  | ToggleShort idx => toggleShortReveal idx st
  | Reset => resetPractice st
  | ToggleShow => toggleShowAnswers st
  end.

(** A run in which every event is one the render offers; [None] when
    some event is not. *)
Fixpoint run (mcq : list MCQQuestion) (evs : list Event) (st : State)
    : option State :=
  match evs with
  | [] => Some st
  | ev :: evs' =>
      if offered mcq st ev then run mcq evs' (step mcq ev st) else None
  end.

Definition isReset (ev : Event) : bool :=
  match ev with Reset => true | _ => false end.

End ExamUI.

(** ** Session history and the exported file name (the application shell) *)

Module History.

Record ShortQuestion := { sq_question : list N; sq_answer : list N }.

Record ExamQuestions :=
  { mcq : list Exam.MCQQuestion; short : list ShortQuestion }.

Record DiagramExplanation :=
  { diagram_title : list N; explanation : list (list N) }.

Record StudyBuddyResponse :=
  { id : list N;
    timestamp : Z;
    title : list N;
    clean_notes : list StudyNote;
    flashcards : list Flashcard;
    exam_questions : ExamQuestions;
    diagram_explanation : list DiagramExplanation }.

(** The updater of [saveToHistory]; the same list is written to the
    store. *)
Definition saveToHistory (session : StudyBuddyResponse)
    (prev : list StudyBuddyResponse) : list StudyBuddyResponse :=
  let filtered := filter (fun item => id item <> id session) prev in
  take 15 (session :: filtered).

(** The updater of [deleteFromHistory]. *)
Definition deleteFromHistory (i : list N) (prev : list StudyBuddyResponse)
    : list StudyBuddyResponse :=
  filter (fun item => i <> id item) prev.

(** [s.replace(/\s+/g, '_')]: every maximal run of white space becomes
    one underscore; [inRun] tells that the previous character was white
    space. *)
Fixpoint replaceSpaces (inRun : bool) (s : list N) : list N :=
  match s with
  | [] => []
  | c :: s' =>
      if isSpace c then
        if inRun then replaceSpaces true s' else 95%N :: replaceSpaces true s'
      else c :: replaceSpaces false s'
  end.

(** [link.download] of [handleDownloadFullDoc]. *)
Definition downloadName (session : StudyBuddyResponse) : list N :=
  replaceSpaces false (title session) ++ js "_Study_Guide.doc".

(** [n] sessions completed on the day [today], each counted by
    [incrementUsage]. *)
Definition sessions (today : list N) (n : nat) (u : App.Usage) : App.Usage :=
  Nat.iter n (App.incrementUsage today) u.

End History.

(** ** The Concept Matcher played pair by pair *)

Module MemoryPlay.

Import Memory.

(** The player turns the two tiles of the pair [k], then the timeout set
    by the second click fires. *)
Definition playPair (notes : list StudyNote) (k : nat) (st : State) : State :=
  step notes (Fire 0)
    (step notes (Click (k * 2 + 1)) (step notes (Click (k * 2)) st)).

(** The pairs [0], ..., [n - 1] played in this order. *)
Fixpoint playPairs (notes : list StudyNote) (n : nat) (st : State) : State :=
  match n with
  | O => st
  | S n' => playPair notes n' (playPairs notes n' st)
  end.

(** The tiles of the pairs [ps], numbered from [k]. *)
Definition deckFrom (k : nat) (ps : list Pair) : list GameCard :=
  concat (imap (fun i => pairCards (k + i)) ps).

(** Tiles of the pairs below [k] marked as matched. *)
Definition markBelow (k : nat) (c : GameCard) : GameCard :=
  if (pairId c <? k)%nat then markMatched c else c.

(** A deck as [initGame] deals it: tile ids are distinct and run from 0,
    the tiles [2 k] and [2 k + 1] carry the pair [k], and nothing is
    matched. *)
Definition fresh (deck : list GameCard) : Prop :=
  NoDup (List.map id deck)
  /\ (forall i, (i < length deck)%nat <-> i ∈ List.map id deck)
  /\ Forall (fun c => isMatched c = false
                      /\ (id c = pairId c * 2 \/ id c = pairId c * 2 + 1)%nat)
       deck.

End MemoryPlay.

(** ** Random numbers that let a question be found *)

Module DashOracle.

Import Dash.


End DashOracle.

(** ** Shapes of strings *)

Module Shape.

(** No character is a delimiter. *)
Definition noDelim (s : list N) : Prop :=
  Forall (fun c => isDelim c = false) s.

(** Neither the first nor the last character is white space. *)
Definition trimmed (s : list N) : Prop :=
  (forall c, head s = Some c -> isSpace c = false)
  /\ (forall c, last s = Some c -> isSpace c = false).

(** No character is white space. *)
Definition noSpace (s : list N) : Prop :=
  Forall (fun c => isSpace c = false) s.

End Shape.

Import Shape.

(** ** More sample inputs *)

Module Scenario.

(** A round on [Sample.abc] in which the third wrong answer is given in
    the last second, and the clock runs out before the settle delay. *)
Definition lastSecond : list Dash.Event :=
  [ Dash.Start Sample.pickA;
    Dash.Answer false; Dash.Settle Sample.pickA;
    Dash.Answer false; Dash.Settle Sample.pickA ]
  ++ repeat Dash.Tick 29
  ++ [ Dash.Answer false; Dash.Tick ].

Definition session (i t : string) : History.StudyBuddyResponse :=
  {| History.id := js i; History.timestamp := 0; History.title := js t;
     History.clean_notes := []; History.flashcards := [];
     History.exam_questions := {| History.mcq := []; History.short := [] |};
     History.diagram_explanation := [] |}.

End Scenario.

(** * Properties *)

(** ** Splitting and the pair extractor *)

Section Splitting.

Lemma split_nonempty (s : list N) : split s <> [].
Proof.
  destruct s as [|c s]; simpl; [discriminate|].
  destruct (isDelim c); [discriminate|].
  destruct (split s); discriminate.
Qed.

(** The first part of [split] is the text before the first delimiter; the
    other parts are the split of the text after it. *)
Lemma split_first (s : list N) :
  split s =
  beforeDelim s :: (if hasDelim s then split (afterDelim s) else []).
Proof.
  induction s as [|c s IH]; simpl; [reflexivity|].
  destruct (isDelim c) eqn:Hc; simpl; [reflexivity|].
  rewrite IH. reflexivity.
Qed.

Lemma split_second (s : list N) :
  hasDelim s = true ->
  exists rest,
    split s = beforeDelim s :: beforeDelim (afterDelim s) :: rest.
Proof.
  intros H. rewrite split_first, H.
  rewrite (split_first (afterDelim s)). eauto.
Qed.

Lemma split_length (s : list N) :
  length (split s) = S (length (List.filter isDelim s)).
Proof.
  induction s as [|c s IH]; simpl; [reflexivity|].
  destruct (isDelim c); simpl; [by rewrite IH|].
  destruct (split s) eqn:E; simpl in *; [discriminate | assumption].
Qed.

End Splitting.

Section PairExtractor.

(** C2, as stated, fails on the code. For the bullet ["Time: 10:30"] the
    code keeps only the text between the first and the second delimiter as
    the definition, where the claim takes all the text after the first
    delimiter; for the bullet ["- item"] the code emits a pair with an
    empty term, where the claim emits none. *)
Lemma pointPairs_spec_counterexample :
  Dash.pointPairs (js "Time: 10:30")
    = [ {| term := js "Time"; def := js "10" |} ]
  /\ Spec.pointPairs (js "Time: 10:30")
    = [ {| term := js "Time"; def := js "10:30" |} ]
  /\ Dash.pointPairs (js "- item") = [ {| term := []; def := js "item" |} ]
  /\ Spec.pointPairs (js "- item") = []
  /\ ~ (forall p, Dash.pointPairs p = Spec.pointPairs p).
Proof.
  repeat split; try reflexivity.
  intros H. specialize (H (js "- item")). vm_compute in H. discriminate.
Qed.

(** C2, amended: for every bullet-point string, the extractor of
    [generateQuestion] cuts the string at every delimiter; it emits exactly
    one pair if and only if the string contains a delimiter, with the
    trimmed text before the first delimiter as the term and the trimmed
    text between the first delimiter and the next one (or the end of the
    string) as the definition, either of which may be empty; a string
    without a delimiter produces no pair. *)
Theorem pointPairs_first_two_parts (p : list N) :
  Dash.pointPairs p =
  if hasDelim p
  then [ {| term := trim (beforeDelim p);
            def := trim (beforeDelim (afterDelim p)) |} ]
  else [].
Proof.
  unfold Dash.pointPairs.
  destruct (hasDelim p) eqn:H.
  - destruct (split_second p H) as [rest ->]. reflexivity.
  - rewrite split_first, H. reflexivity.
Qed.

End PairExtractor.

(** ** Knowledge Dash: question generation *)

Section QuestionGeneration.

Import Dash.

Lemma random_range (rnd : nat -> Z) (i : nat) : 0 <= random rnd i < 2 ^ 53.
Proof. unfold random. apply Z.mod_pos_bound. lia. Qed.

(** [Math.floor(Math.random() * len)] is an index of an array of length
    [len]. *)
Lemma randomIndex_lt (rnd : nat -> Z) (i len : nat) :
  (0 < len)%nat -> (randomIndex rnd i len < len)%nat.
Proof.
  intros Hlen. unfold randomIndex.
  pose proof (random_range rnd i) as [H0 H1].
  assert (random rnd i * Z.of_nat len / 2 ^ 53 < Z.of_nat len).
  { apply Z.div_lt_upper_bound; nia. }
  assert (0 <= random rnd i * Z.of_nat len / 2 ^ 53).
  { apply Z.div_pos; nia. }
  lia.
Qed.

Lemma draw_elem (pairs : list Pair) (rnd : nat -> Z) (i : nat) (p : Pair) :
  draw pairs rnd i = Returned p -> p ∈ pairs.
Proof.
  unfold draw. destruct (pairs !! _) eqn:E; [|discriminate].
  intros [= <-]. eapply list_elem_of_lookup_2; eassumption.
Qed.

(** A draw from a pool that is not empty never throws. *)
Lemma draw_returns (pairs : list Pair) (rnd : nat -> Z) (i : nat) :
  pairs <> [] -> exists p, draw pairs rnd i = Returned p /\ p ∈ pairs.
Proof.
  intros Hne. unfold draw.
  destruct (pairs !! randomIndex rnd i (length pairs)) eqn:E.
  - eexists; split; [reflexivity|].
    eapply list_elem_of_lookup_2; eassumption.
  - apply lookup_ge_None in E.
    assert (0 < length pairs)%nat by (destruct pairs; [congruence | simpl; lia]).
    pose proof (randomIndex_lt rnd i (length pairs)). lia.
Qed.

(** What the redraw loop returns has a term other than the base term, and
    is the pair it was entered with or a pair of the pool. *)
Lemma redraw_sound (fuel : nat) (pairs : list Pair) (rnd : nat -> Z) :
  forall (k : nat) (pairA pairB p : Pair),
    redraw fuel pairs rnd k pairA pairB = Returned p ->
    (p = pairB \/ p ∈ pairs) /\ term p <> term pairA.
Proof.
  induction fuel as [|fuel IH]; intros k pairA pairB p; simpl.
  - case_decide; [discriminate|]. intros [= <-]. auto.
  - case_decide as Heq.
    + destruct (draw pairs rnd k) as [pairB'| |] eqn:Hd; simpl;
        [|discriminate|discriminate].
      intros Hr. apply IH in Hr as [[-> | Hin] Hne]; split; auto.
      right. eapply draw_elem; eassumption.
    + intros [= <-]. auto.
Qed.

(** More fuel does not change a result already reached. *)
Lemma redraw_mono (fuel fuel' : nat) (pairs : list Pair) (rnd : nat -> Z) :
  forall (k : nat) (pairA pairB p : Pair),
    (fuel <= fuel')%nat ->
    redraw fuel pairs rnd k pairA pairB = Returned p ->
    redraw fuel' pairs rnd k pairA pairB = Returned p.
Proof.
  revert fuel'.
  induction fuel as [|fuel IH]; intros fuel' k pairA pairB p Hle; simpl.
  - case_decide; [discriminate|]. intros [= <-].
    destruct fuel'; simpl; case_decide; congruence.
  - destruct fuel' as [|fuel']; [lia|]. simpl.
    case_decide; [|done].
    destruct (draw pairs rnd k) as [pairB'| |]; simpl; try discriminate.
    apply IH. lia.
Qed.

Lemma generateQuestion_mono (fuel fuel' : nat) (data : Props)
    (rnd : nat -> Z) (q : option Question) :
  (fuel <= fuel')%nat ->
  generateQuestion fuel data rnd = Returned q ->
  generateQuestion fuel' data rnd = Returned q.
Proof.
  intros Hle. unfold generateQuestion.
  destruct (length (allPairs data) <? 2)%nat; [done|].
  destruct (draw (allPairs data) rnd 1) as [pairA| |]; simpl; try done.
  destruct (overHalf rnd 0); [done|].
  destruct (draw (allPairs data) rnd 2) as [pairB0| |]; simpl; try done.
  destruct (redraw fuel _ _ _ _ _) as [pairB| |] eqn:Hr; simpl; try done.
  rewrite (redraw_mono fuel fuel' _ _ _ _ _ _ Hle Hr). done.
Qed.

(** While every pair of the pool carries the base term, the redraw loop
    does not return, whatever the fuel and the random numbers. *)
Lemma redraw_same_term (fuel : nat) (pairs : list Pair) (rnd : nat -> Z) :
  forall (k : nat) (pairA pairB : Pair),
    pairs <> [] ->
    (forall p, p ∈ pairs -> term p = term pairA) ->
    term pairB = term pairA ->
    redraw fuel pairs rnd k pairA pairB = Running.
Proof.
  induction fuel as [|fuel IH]; intros k pairA pairB Hne Hall HB; simpl;
    (case_decide; [|congruence]); [reflexivity|].
  destruct (draw_returns pairs rnd k Hne) as (p & -> & Hin). simpl.
  apply IH; auto.
Qed.




End QuestionGeneration.

Section QuestionClaims.

Import Dash.

(** C5: the redraw loop of [generateQuestion] is left only by drawing a
    pair whose term differs from the base term. For the notes
    [Sample.sameTerm] the pool has two pairs, both with the term
    ["Mitosis"]: whenever the first random number does not exceed 0.5,
    [generateQuestion] is still running after any number of redraws,
    whatever the random numbers. *)
Theorem generateQuestion_same_term_runs (fuel : nat) (rnd : nat -> Z) :
  overHalf rnd 0 = false ->
  length (allPairs Sample.sameTerm) = 2%nat
  /\ generateQuestion fuel Sample.sameTerm rnd = Running.
Proof.
  intros Hhalf. split; [reflexivity|].
  unfold generateQuestion. rewrite Hhalf.
  set (pairs := allPairs Sample.sameTerm).
  assert (Hne : pairs <> []) by (vm_compute; discriminate).
  assert (Hall : forall p, p ∈ pairs -> term p = js "Mitosis").
  { intros p Hp. vm_compute in Hp.
    apply elem_of_cons in Hp as [-> | Hp]; [reflexivity|].
    apply elem_of_cons in Hp as [-> | Hp]; [reflexivity|].
    by apply elem_of_nil in Hp. }
  change (length pairs <? 2)%nat with false. cbv iota.
  destruct (draw_returns pairs rnd 1 Hne) as (pairA & -> & HA). cbn [bind].
  destruct (draw_returns pairs rnd 2 Hne) as (pairB & -> & HB). cbn [bind].
  rewrite (redraw_same_term fuel pairs rnd 3 pairA pairB); [reflexivity|done| |].
  - intros p Hp. rewrite (Hall p Hp), (Hall pairA HA). reflexivity.
  - rewrite (Hall pairB HB), (Hall pairA HA). reflexivity.
Qed.

Lemma generateQuestion_same_term_runs_witness :
  generateQuestion 1000 Sample.sameTerm (Sample.oracle []) = Running.
Proof.
  apply (generateQuestion_same_term_runs 1000 (Sample.oracle [])).
  reflexivity.
Defined.

(** C6: whenever [generateQuestion] returns a question with
    [isCorrect = false], its definition is the definition of a pair of the
    pool whose term differs from the term of the question; for the pool
    [{A,1}, {B,2}, {C,3}] a false question on the term ["A"] never carries
    the definition ["1"]. *)
Theorem generateQuestion_mismatch (fuel : nat) (data : Props)
    (rnd : nat -> Z) (q : Question) :
  generateQuestion fuel data rnd = Returned (Some q) ->
  isCorrect q = false ->
  (exists pairB, pairB ∈ allPairs data
                 /\ definition q = def pairB
                 /\ term pairB <> q_term q)
  /\ (allPairs data = allPairs Sample.abc ->
      q_term q = js "A" -> definition q <> js "1").
Proof.
  intros Hgen Hfalse.
  assert (Hex : exists pairB, pairB ∈ allPairs data
                 /\ definition q = def pairB /\ term pairB <> q_term q).
  { revert Hgen. unfold generateQuestion.
    destruct (length (allPairs data) <? 2)%nat; [discriminate|].
    destruct (draw (allPairs data) rnd 1) as [pairA| |]; simpl; try done.
    destruct (overHalf rnd 0).
    { intros [= <-]. discriminate. }
    destruct (draw (allPairs data) rnd 2) as [pairB0| |] eqn:Hd; simpl;
      try done.
    destruct (redraw fuel _ _ _ _ _) as [pairB| |] eqn:Hr; simpl; try done.
    intros [= <-]. simpl.
    apply redraw_sound in Hr as [Hin Hne].
    exists pairB. repeat split; [|done].
    destruct Hin as [-> | Hin]; [|done]. eapply draw_elem; eassumption. }
  split; [done|].
  intros Hpool HA H1. destruct Hex as (pairB & Hin & Hdef & Hne).
  rewrite Hpool in Hin. rewrite HA in Hne. rewrite H1 in Hdef.
  vm_compute in Hin.
  repeat (apply elem_of_cons in Hin as [-> | Hin];
          [first [by apply Hne | discriminate Hdef]|]).
  by apply elem_of_nil in Hin.
Qed.

Lemma generateQuestion_mismatch_witness :
  exists q,
    generateQuestion 1 Sample.abc
      (Sample.oracle [0; 0; 0; Sample.frac 1 2]) = Returned (Some q)
    /\ q_term q = js "A" /\ definition q = js "2"
    /\ definition q <> js "1".
Proof.
  eexists. split; [vm_compute; reflexivity|].
  split; [reflexivity|]. split; [reflexivity|].
  apply (generateQuestion_mismatch 1 Sample.abc
           (Sample.oracle [0; 0; 0; Sample.frac 1 2]));
    reflexivity.
Defined.

End QuestionClaims.

(** ** Knowledge Dash: the round state machine *)

Section RoundStateMachine.

Import Dash.

Variable data : Props.

(** A correct answer, spelled out field by field. *)
Lemma handleAnswer_correct (st : State) (q : Question) :
  currentQuestion st = Some q ->
  feedback st = None ->
  handleAnswer (isCorrect q) st =
  {| gameState := gameState st; currentQuestion := Some q;
     score := score st + 10 * (streak st + 1); streak := streak st + 1;
     lives := lives st; timeLeft := timeLeft st;
     feedback := Some correct;
     timeouts := timeouts st ++ [ {| t_lives := lives st;
                                     t_answer := isCorrect q;
                                     t_question := q |} ] |}.
Proof.
  intros Hq Hf. unfold handleAnswer. rewrite Hq, Hf, Bool.eqb_reflx.
  unfold setTimeout, setTimeouts, setFeedback, setStreak, setScore; simpl.
  rewrite Hq. reflexivity.
Qed.

(** A wrong answer, spelled out field by field. *)
Lemma handleAnswer_incorrect (st : State) (q : Question) (answer : bool) :
  currentQuestion st = Some q ->
  feedback st = None ->
  answer <> isCorrect q ->
  handleAnswer answer st =
  {| gameState := gameState st; currentQuestion := Some q;
     score := score st; streak := 0;
     lives := lives st - 1; timeLeft := timeLeft st;
     feedback := Some wrong;
     timeouts := timeouts st ++ [ {| t_lives := lives st;
                                     t_answer := answer;
                                     t_question := q |} ] |}.
Proof.
  intros Hq Hf Hne. unfold handleAnswer. rewrite Hq, Hf.
  replace (Bool.eqb answer (isCorrect q)) with false
    by (destruct answer, (isCorrect q); simpl; congruence).
  unfold setTimeout, setTimeouts, setFeedback, setStreak, setLives; simpl.
  rewrite Hq. reflexivity.
Qed.

(** A correct answer followed by its settle delay, with lives left: the
    next question is in place and the round goes on. *)
Lemma answer_settle_correct (fuel : nat) (rnd : nat -> Z) (st : State)
    (q : Question) (q' : option Question) :
  currentQuestion st = Some q ->
  feedback st = None ->
  timeouts st = [] ->
  0 < lives st ->
  generateQuestion fuel data rnd = Returned q' ->
  settle fuel data rnd (handleAnswer (isCorrect q) st) =
  Returned
    {| gameState := gameState st; currentQuestion := q';
       score := score st + 10 * (streak st + 1); streak := streak st + 1;
       lives := lives st; timeLeft := timeLeft st;
       feedback := None; timeouts := [] |}.
Proof.
  intros Hq Hf Ht Hl Hgen.
  rewrite (handleAnswer_correct st q Hq Hf), Ht.
  unfold settle, settleCallback; simpl.
  rewrite Bool.eqb_reflx.
  destruct (Z.leb_spec (lives st) 0) as [?|_]; [lia|].
  rewrite Hgen. reflexivity.
Qed.



(** *** The invariant of the countdown *)

Lemma handleAnswer_phase_time (answer : bool) (st : State) :
  gameState (handleAnswer answer st) = gameState st
  /\ timeLeft (handleAnswer answer st) = timeLeft st.
Proof.
  unfold handleAnswer.
  destruct (currentQuestion st); [|done].
  destruct (feedback st); [done|].
  destruct (Bool.eqb answer (isCorrect q)); done.
Qed.

Lemma step_has_time (fuel : nat) (ev : Event) (st st' : State) :
  has_time st -> step fuel data ev st = Returned st' -> has_time st'.
Proof.
  unfold has_time. intros Hinv.
  destruct ev as [rnd|answer|rnd|]; simpl.
  - unfold startGame.
    destruct (generateQuestion fuel data rnd); simpl; try done.
    intros [= <-]. simpl. lia.
  - intros [= <-].
    destruct (handleAnswer_phase_time answer st) as [-> ->]. done.
  - unfold settle. destruct (timeouts st) as [|c cs].
    { intros [= <-]. done. }
    unfold settleCallback.
    destruct (t_lives c <=? _).
    { intros [= <-]. simpl. discriminate. }
    destruct (generateQuestion fuel data rnd); simpl; try done.
    intros [= <-]. simpl. done.
  - intros [= <-]. unfold tick.
    destruct (gameState st) eqn:Hg; try (rewrite Hg; done).
    destruct (Z.ltb_spec 0 (timeLeft st)); [|rewrite Hg; done].
    destruct (Z.leb_spec (timeLeft st) 1); simpl; [discriminate | lia].
Qed.

Lemma run_has_time (fuel : nat) (evs : list Event) :
  forall st st',
    has_time st -> run fuel data evs st = Returned st' -> has_time st'.
Proof.
  induction evs as [|ev evs IH]; intros st st' Hinv; simpl.
  - intros [= <-]. done.
  - destruct (step fuel data ev st) as [st1| |] eqn:Hs; simpl; try done.
    apply IH. eapply step_has_time; eassumption.
Qed.

Lemma reachable_has_time (st : State) : reachable data st -> has_time st.
Proof.
  intros (fuel & evs & Hrun).
  eapply run_has_time; [|exact Hrun]. unfold has_time. discriminate.
Qed.

End RoundStateMachine.

Section RoundClaims.

Import Dash.

Variable data : Props.

(** C1: in every playing state with an active question and no feedback
    pending, answering with the choice equal to the question's [isCorrect]
    adds [10 * (s + 1)] to the score and sets the streak to [s + 1], where
    [s] is the streak before the answer; and from score 0 and streak 0,
    three correct answers in a row (each followed by its settle delay,
    which brings the next question) give score 60 and streak 3. *)
Theorem handleAnswer_correct_scoring :
  (forall st q,
     gameState st = playing ->
     currentQuestion st = Some q ->
     feedback st = None ->
     score (handleAnswer (isCorrect q) st) = score st + 10 * (streak st + 1)
     /\ streak (handleAnswer (isCorrect q) st) = streak st + 1)
  /\ (forall st q0 rnd1 q1 rnd2 q2,
        gameState st = playing ->
        currentQuestion st = Some q0 ->
        feedback st = None ->
        timeouts st = [] ->
        0 < lives st ->
        score st = 0 ->
        streak st = 0 ->
        generates data rnd1 (Some q1) ->
        generates data rnd2 (Some q2) ->
        exists fuel st',
          run fuel data
            [ Answer (isCorrect q0); Settle rnd1;
              Answer (isCorrect q1); Settle rnd2;
              Answer (isCorrect q2) ] st = Returned st'
          /\ score st' = 60 /\ streak st' = 3).
Proof.
  split.
  - intros st q _ Hq Hf. rewrite (handleAnswer_correct st q Hq Hf).
    split; reflexivity.
  - intros st q0 rnd1 q1 rnd2 q2 _ Hq Hf Ht Hl Hsc Hstr [f1 Hg1] [f2 Hg2].
    exists (max f1 f2).
    apply (generateQuestion_mono f1 (max f1 f2)) in Hg1; [|lia].
    apply (generateQuestion_mono f2 (max f1 f2)) in Hg2; [|lia].
    cbn [run step bind].
    rewrite (answer_settle_correct data _ rnd1 st q0 (Some q1));
      try assumption.
    cbn [bind].
    rewrite (answer_settle_correct data _ rnd2 _ q1 (Some q2));
      try assumption; try reflexivity.
    cbn [bind].
    rewrite handleAnswer_correct by reflexivity.
    eexists. split; [reflexivity|]. simpl. lia.
Qed.

(** C4: in every reachable state, a tick while [playing] takes one second
    off [timeLeft] and touches neither lives nor score; the tick that
    brings [timeLeft] to 0 sets the state to [ended], whatever the lives;
    and after a tick the state is never [playing] with [timeLeft] 0. *)
Theorem tick_countdown (st : State) :
  reachable data st ->
  (gameState st = playing ->
   timeLeft (tick st) = timeLeft st - 1
   /\ lives (tick st) = lives st
   /\ (timeLeft (tick st) = 0 -> gameState (tick st) = ended))
  /\ ~ (gameState (tick st) = playing /\ timeLeft (tick st) = 0).
Proof.
  intros Hreach.
  pose proof (reachable_has_time data st Hreach) as Hinv.
  assert (Hnext : has_time (tick st)).
  { apply (step_has_time data 0%nat Tick st); [exact Hinv | reflexivity]. }
  split.
  - intros Hg. specialize (Hinv Hg). unfold tick. rewrite Hg.
    destruct (Z.ltb_spec 0 (timeLeft st)); [|lia].
    destruct (Z.leb_spec (timeLeft st) 1); simpl.
    + repeat split; lia.
    + repeat split; lia.
  - intros [Hg H0]. specialize (Hnext Hg). lia.
Qed.

End RoundClaims.

Section RoundWitnesses.

Import Dash.

Lemma handleAnswer_correct_scoring_witness :
  (score (handleAnswer true (Sample.round 0 0 3 30)) = 10
   /\ streak (handleAnswer true (Sample.round 0 0 3 30)) = 1)
  /\ exists fuel st',
       run fuel Sample.abc
         [ Answer true; Settle Sample.pickA; Answer true; Settle Sample.pickA;
           Answer true ] (Sample.round 0 0 3 30) = Returned st'
       /\ score st' = 60 /\ streak st' = 3.
Proof.
  split.
  - apply (proj1 (handleAnswer_correct_scoring Sample.abc)
             (Sample.round 0 0 3 30) Sample.questionA); reflexivity.
  - apply (proj2 (handleAnswer_correct_scoring Sample.abc)
             (Sample.round 0 0 3 30) Sample.questionA
             Sample.pickA Sample.questionA Sample.pickA Sample.questionA);
      try reflexivity; exists 0%nat; reflexivity.
Defined.

Lemma tick_countdown_witness :
  reachable Sample.abc (Sample.round 0 0 3 1)
  /\ timeLeft (tick (Sample.round 0 0 3 1)) = 0
  /\ lives (tick (Sample.round 0 0 3 1)) = 3
  /\ gameState (tick (Sample.round 0 0 3 1)) = ended.
Proof.
  assert (Hreach : reachable Sample.abc (Sample.round 0 0 3 1)).
  { exists 0%nat, (Start Sample.pickA :: repeat Tick 29). reflexivity. }
  split; [exact Hreach|].
  destruct (tick_countdown Sample.abc (Sample.round 0 0 3 1) Hreach)
    as [Htick _].
  destruct (Htick eq_refl) as (Ht & Hl & He).
  split; [exact Ht|]. split; [exact Hl | exact (He Ht)].
Defined.

End RoundWitnesses.

(** ** Concept Matcher: selection *)

Section Selection.

Import Memory.

Variable notes : list StudyNote.

(** The click guard of [handleCardClick]. *)
Lemma handleCardClick_rejected (i : nat) (st : State) :
  length (flippedCards st) = 2%nat
  \/ (exists c, findCard (cards st) i = Some c /\ isMatched c = true)
  \/ i ∈ flippedCards st ->
  handleCardClick i st = st.
Proof.
  intros H. unfold handleCardClick.
  destruct H as [H | [(c & Hc & Hm) | H]].
  - rewrite H. reflexivity.
  - rewrite Hc. simpl. rewrite Hm, orb_true_r. reflexivity.
  - rewrite (bool_decide_eq_true_2 _ H), orb_true_r. reflexivity.
Qed.

(** A click either changes nothing or appends the tile to the selection. *)
Lemma handleCardClick_flipped (i : nat) (st : State) :
  handleCardClick i st = st
  \/ ((length (flippedCards st) =? 2)%nat = false
      /\ from_option isMatched false (findCard (cards st) i) = false
      /\ flippedCards (handleCardClick i st) = flippedCards st ++ [i]).
Proof.
  unfold handleCardClick.
  destruct (length (flippedCards st) =? 2)%nat eqn:H2; [by left|].
  destruct (from_option isMatched false (findCard (cards st) i)) eqn:Hm;
    [by left|].
  destruct (bool_decide (i ∈ flippedCards st)); [by left|].
  right. split; [done|]. split; [done|]. simpl.
  destruct (length (flippedCards st ++ [i]) =? 2)%nat; [|reflexivity].
  destruct ((flippedCards st ++ [i]) !! 0%nat ≫= findCard (cards st))
    as [first|]; [|reflexivity].
  destruct ((flippedCards st ++ [i]) !! 1%nat ≫= findCard (cards st))
    as [second|]; [|reflexivity].
  destruct (pairId first =? pairId second)%nat; reflexivity.
Qed.

Lemma fire_flipped (n : nat) (st : State) :
  flippedCards (fire n st) = flippedCards st
  \/ flippedCards (fire n st) = [].
Proof.
  unfold fire. destruct (timeouts st !! n) as [[first second|]|];
    simpl; auto.
Qed.

Lemma step_selection_bound (ev : Event) (st : State) :
  (length (flippedCards st) <= 2)%nat ->
  (length (flippedCards (step notes ev st)) <= 2)%nat.
Proof.
  intros Hle. destruct ev as [sp sc|i|n]; simpl.
  - lia.
  - destruct (handleCardClick_flipped i st) as [-> | (H2 & _ & ->)];
      [exact Hle|].
    apply Nat.eqb_neq in H2. rewrite length_app. simpl. lia.
  - destruct (fire_flipped n st) as [-> | ->]; simpl; lia.
Qed.

Lemma reachable_selection_bound (st : State) :
  reachable notes st -> (length (flippedCards st) <= 2)%nat.
Proof.
  induction 1 as [|st ev _ IH]; [simpl; lia|].
  by apply step_selection_bound.
Qed.

(** C7: in every reachable state of the Concept Matcher at most two tiles
    are face-up; a click is a no-op when two tiles are already face-up,
    when the clicked tile is already matched, or when it is already
    selected; a second click on the same tile right after the first
    changes nothing, so that from an empty selection two clicks in a row
    on an unmatched tile leave exactly that one tile selected. *)
Theorem handleCardClick_selection (st : State) :
  reachable notes st ->
  (length (flippedCards st) <= 2)%nat
  /\ (forall i,
        length (flippedCards st) = 2%nat
        \/ (exists c, findCard (cards st) i = Some c /\ isMatched c = true)
        \/ i ∈ flippedCards st ->
        handleCardClick i st = st)
  /\ (forall i,
        handleCardClick i (handleCardClick i st) = handleCardClick i st)
  /\ (forall i,
        flippedCards st = [] ->
        from_option isMatched false (findCard (cards st) i) = false ->
        flippedCards (handleCardClick i (handleCardClick i st)) = [i]
        /\ length (flippedCards (handleCardClick i (handleCardClick i st)))
           = 1%nat).
Proof.
  intros Hreach.
  assert (Hidem : forall i,
    handleCardClick i (handleCardClick i st) = handleCardClick i st).
  { intros i.
    destruct (handleCardClick_flipped i st) as [Hsame | (_ & _ & Hfl)].
    - rewrite !Hsame. reflexivity.
    - apply handleCardClick_rejected. right. right.
      rewrite Hfl. set_solver. }
  split; [by apply reachable_selection_bound|].
  split; [intros i; apply handleCardClick_rejected|].
  split; [exact Hidem|].
  intros i Hempty Hm. rewrite Hidem.
  assert (flippedCards (handleCardClick i st) = [i]) as ->; [|done].
  unfold handleCardClick. rewrite Hempty, Hm. simpl. reflexivity.
Qed.

End Selection.

Lemma handleCardClick_selection_witness :
  Memory.reachable Sample.biology Sample.oneSelected
  /\ Memory.flippedCards Sample.oneSelected = [0%nat]
  /\ Memory.handleCardClick 0 Sample.oneSelected = Sample.oneSelected.
Proof.
  assert (Hreach : Memory.reachable Sample.biology Sample.oneSelected).
  { unfold Sample.oneSelected. do 2 apply Memory.reachable_step.
    apply Memory.reachable_initial. }
  split; [exact Hreach|]. split; [reflexivity|].
  destruct (handleCardClick_selection Sample.biology Sample.oneSelected
              Hreach) as (_ & Hguard & _).
  apply Hguard. right. right. vm_compute. apply list_elem_of_here.
Defined.

(** ** Concept Matcher: the game-specific extraction *)

Section GameExtraction.

(** C8, as stated, fails on the code. The bullet ["DNA: acid"] splits and
    its term is short, yet the code emits nothing, because the definition
    has no more than 5 characters; a bullet whose term has exactly 40
    characters is rejected by the code and kept by the claim; and the
    fallback definition is cut to the first 100 characters of
    [points[0]]. *)
Lemma game_pointPairs_counterexample :
  Memory.pointPairs (js "DNA: acid") = []
  /\ Spec.gamePointPairs (js "DNA: acid")
     = [ {| term := js "DNA"; def := js "acid" |} ]
  /\ Memory.pointPairs (repeat 97%N 40 ++ js ": the first letter") = []
  /\ Spec.gamePointPairs (repeat 97%N 40 ++ js ": the first letter")
     = [ {| term := repeat 97%N 40; def := js "the first letter" |} ]
  /\ Memory.extractPairs
       [ {| heading := js "H"; points := [ repeat 97%N 150 ] |} ]
     = [ {| term := js "H"; def := repeat 97%N 100 |} ]
  /\ Spec.fallbackPair {| heading := js "H"; points := [ repeat 97%N 150 ] |}
     = [ {| term := js "H"; def := repeat 97%N 150 |} ].
Proof. repeat split; vm_compute; reflexivity. Qed.

Lemma fallback_length (notes : list StudyNote) :
  (length (flat_map Memory.fallbackPair notes) <= length notes)%nat.
Proof.
  induction notes as [|note notes IH]; simpl; [lia|].
  rewrite length_app. unfold Memory.fallbackPair at 1.
  destruct (points note); simpl; lia.
Qed.

(** C8, amended: the game-specific extraction of [initGame] emits a pair
    for a bullet exactly when the bullet contains a delimiter, the trimmed
    text before the first delimiter (the term) has fewer than 40
    characters and the trimmed text between the first delimiter and the
    next one (the definition) has more than 5 characters; the definition
    is cut to 100 characters, followed by ["..."], when it is longer, and
    kept as it is otherwise. When fewer than 3 pairs qualify, it appends,
    for each of the first 4 notes that has at least one point, the pair
    of the note's heading and the first 100 characters of its first
    point: at most 4 pairs. *)
Theorem game_extractPairs_rules (notes : list StudyNote) (point : list N) :
  let t := trim (beforeDelim point) in
  let d := trim (beforeDelim (afterDelim point)) in
  Memory.pointPairs point
    = (if hasDelim point && (length t <? 40)%nat && (5 <? length d)%nat
       then [ {| term := t; def := Spec.truncate d |} ]
       else [])
  /\ Memory.extractPairs notes
     = Memory.qualifying notes
       ++ (if (length (Memory.qualifying notes) <? 3)%nat
           then flat_map Memory.fallbackPair (take 4 notes)
           else [])
  /\ (length (flat_map Memory.fallbackPair (take 4 notes)) <= 4)%nat
  /\ (forall p,
        p ∈ flat_map Memory.fallbackPair (take 4 notes) <->
        exists note p0 rest,
          note ∈ take 4 notes /\ points note = p0 :: rest
          /\ p = {| term := heading note; def := take 100 p0 |}).
Proof.
  intros t d. split; [|split; [|split]].
  - unfold Memory.pointPairs. subst t d.
    destruct (hasDelim point) eqn:H.
    + destruct (split_second point H) as [rest ->]. cbv beta iota.
      rewrite andb_true_l.
      destruct (_ && _); [|reflexivity].
      unfold Spec.truncate, substring0.
      destruct (Nat.ltb_spec 100
                  (length (trim (beforeDelim (afterDelim point)))));
        [reflexivity|].
      rewrite take_ge by lia. by rewrite app_nil_r.
    + rewrite split_first, H. reflexivity.
  - unfold Memory.extractPairs.
    destruct (length (Memory.qualifying notes) <? 3)%nat;
      [reflexivity | by rewrite app_nil_r].
  - etransitivity; [apply fallback_length|].
    rewrite length_take. lia.
  - intros p. rewrite list_elem_of_In, in_flat_map. split.
    + intros (note & Hin & Hp). unfold Memory.fallbackPair in Hp.
      destruct (points note) as [|p0 rest] eqn:E; [destruct Hp|].
      destruct Hp as [<- | []].
      exists note, p0, rest. by rewrite list_elem_of_In.
    + intros (note & p0 & rest & Hin & E & ->).
      exists note. split; [by rewrite <- list_elem_of_In|].
      unfold Memory.fallbackPair. rewrite E. by left.
Qed.

End GameExtraction.

(** ** Interactive Practice: the show-answers toggle *)

Section ShowAnswers.

Import Exam.

Variable mcq : list MCQQuestion.

Lemma clickOptions_shown (clicks : list (nat * list N)) (st : State) :
  showOverallAnswers st = true -> clickOptions mcq clicks st = st.
Proof.
  intros Hs. unfold clickOptions.
  induction clicks as [|c clicks IH]; simpl; [reflexivity|].
  unfold handleOptionClick at 2. rewrite Hs. exact IH.
Qed.

Lemma toggleShowAnswers_involutive (st : State) :
  toggleShowAnswers (toggleShowAnswers st) = st.
Proof.
  destruct st as [sel short rev show]. unfold toggleShowAnswers. simpl.
  by rewrite negb_involutive.
Qed.

(** C9: enabling the global show-answers flag leaves the recorded
    multiple-choice selections, the short-answer drafts and the
    per-question reveal flags as they are, while every question counts as
    answered and every short answer as revealed; option clicks made while
    it is enabled record nothing; and disabling it again gives back the
    state from before, hence the same answered / unanswered status, verdict
    and option colours for every question. *)
Theorem toggleShowAnswers_frame (st : State) :
  showOverallAnswers st = false ->
  let on := toggleShowAnswers st in
  selectedOptions on = selectedOptions st
  /\ shortAnswers on = shortAnswers st
  /\ revealedShort on = revealedShort st
  /\ showOverallAnswers on = true
  /\ (forall idx, hasAnswered idx on = true /\ isRevealed idx on = true)
  /\ (forall clicks, clickOptions mcq clicks on = on)
  /\ toggleShowAnswers on = st
  /\ (forall idx q opt,
        hasAnswered idx (toggleShowAnswers on) = hasAnswered idx st
        /\ showsVerdict idx (toggleShowAnswers on) = showsVerdict idx st
        /\ isRevealed idx (toggleShowAnswers on) = isRevealed idx st
        /\ bgColor idx q opt (toggleShowAnswers on) = bgColor idx q opt st).
Proof.
  intros Hoff on. subst on.
  assert (Hon : showOverallAnswers (toggleShowAnswers st) = true)
    by (simpl; rewrite Hoff; reflexivity).
  repeat split; try reflexivity; try exact Hon.
  - unfold hasAnswered. rewrite Hon. apply orb_true_r.
  - unfold isRevealed. rewrite Hon. apply orb_true_r.
  - intros clicks. by apply clickOptions_shown.
  - apply toggleShowAnswers_involutive.
  - by rewrite toggleShowAnswers_involutive.
  - by rewrite toggleShowAnswers_involutive.
  - by rewrite toggleShowAnswers_involutive.
  - by rewrite toggleShowAnswers_involutive.
Qed.

End ShowAnswers.

Lemma toggleShowAnswers_frame_witness :
  let on := Exam.toggleShowAnswers Sample.answered in
  Exam.selectedOptions on !! 0%nat = Some (js "3")
  /\ Exam.clickOptions Sample.mcq1 [ (0%nat, js "4") ] on = on
  /\ Exam.toggleShowAnswers on = Sample.answered.
Proof.
  destruct (toggleShowAnswers_frame Sample.mcq1 Sample.answered eq_refl)
    as (Hsel & _ & _ & _ & _ & Hclicks & Hoff & _).
  split; [rewrite Hsel; reflexivity|].
  split; [apply Hclicks | exact Hoff].
Defined.

(** ** Daily usage *)

Section DailyUsage.

Import App.


End DailyUsage.


(** * Further properties *)

(** ** The pool of pairs and the questions drawn from it *)

Section Pool.

Import Dash.

Lemma pointPairs_length (p : list N) :
  length (pointPairs p) = if hasDelim p then 1%nat else 0%nat.
Proof.
  unfold pointPairs. destruct (hasDelim p) eqn:H.
  - destruct (split_second p H) as [rest ->]. reflexivity.
  - rewrite split_first, H. reflexivity.
Qed.

Lemma bullets_length (ps : list (list N)) :
  length (flat_map pointPairs ps) = length (List.filter hasDelim ps).
Proof.
  induction ps as [|p ps IH]; simpl; [reflexivity|].
  rewrite length_app, pointPairs_length, IH.
  destruct (hasDelim p); reflexivity.
Qed.

(** X1: the pool of [generateQuestion] has one pair per flashcard and one
    per bullet point that contains a delimiter; bullet points without a
    delimiter and note headings contribute nothing. *)
Theorem allPairs_length (data : Props) :
  length (allPairs data)
  = (length (flashcards data)
     + length (List.filter hasDelim (flat_map points (clean_notes data))))%nat.
Proof.
  unfold allPairs. rewrite length_app, length_map. f_equal.
  induction (clean_notes data) as [|n ns IH]; simpl; [reflexivity|].
  rewrite length_app, List.filter_app, length_app, IH, bullets_length.
  reflexivity.
Qed.

Lemma redraw_not_thrown (fuel : nat) (pairs : list Pair) (rnd : nat -> Z) :
  pairs <> [] ->
  forall (k : nat) (pairA pairB : Pair),
    redraw fuel pairs rnd k pairA pairB <> Thrown.
Proof.
  intros Hne. induction fuel as [|fuel IH]; intros k pairA pairB; simpl;
    case_decide; try discriminate.
  destruct (draw_returns pairs rnd k Hne) as (p & -> & _). simpl. apply IH.
Qed.

(** X2: [generateQuestion] never throws, and it returns [null] exactly
    when the pool has fewer than two pairs, whatever the random numbers. *)
Theorem generateQuestion_null (fuel : nat) (data : Props) (rnd : nat -> Z) :
  generateQuestion fuel data rnd <> Thrown
  /\ (generateQuestion fuel data rnd = Returned None
      <-> (length (allPairs data) < 2)%nat).
Proof.
  unfold generateQuestion.
  destruct (Nat.ltb_spec (length (allPairs data)) 2) as [Hlt|Hge].
  { split; [discriminate | done]. }
  assert (Hne : allPairs data <> [])
    by (destruct (allPairs data); [simpl in *; lia | done]).
  destruct (draw_returns (allPairs data) rnd 1 Hne) as (pairA & -> & _).
  cbn [bind]. destruct (overHalf rnd 0).
  { split; [discriminate|]. split; [discriminate | lia]. }
  destruct (draw_returns (allPairs data) rnd 2 Hne) as (pairB0 & -> & _).
  cbn [bind].
  pose proof (redraw_not_thrown fuel (allPairs data) rnd Hne 3 pairA pairB0).
  destruct (redraw fuel _ _ _ _ _); simpl;
    (split; [congruence|]); (split; [discriminate | lia]).
Qed.

(** X3: the term of a question [generateQuestion] returns is the term of a
    pair of the pool, its definition is the definition of a pair of the
    pool, and a question marked as correct shows the term and the
    definition of one and the same pair. *)
Theorem generateQuestion_from_pool (fuel : nat) (data : Props)
    (rnd : nat -> Z) (q : Question) :
  generateQuestion fuel data rnd = Returned (Some q) ->
  (exists pairA, pairA ∈ allPairs data /\ q_term q = term pairA
                 /\ (isCorrect q = true -> definition q = def pairA))
  /\ (exists pairB, pairB ∈ allPairs data /\ definition q = def pairB).
Proof.
  unfold generateQuestion.
  destruct (length (allPairs data) <? 2)%nat; [discriminate|].
  destruct (draw (allPairs data) rnd 1) as [pairA| |] eqn:HA; simpl;
    try done.
  apply draw_elem in HA.
  destruct (overHalf rnd 0).
  { intros [= <-]. simpl. split; exists pairA; auto. }
  destruct (draw (allPairs data) rnd 2) as [pairB0| |] eqn:HB; simpl;
    try done.
  apply draw_elem in HB.
  destruct (redraw fuel _ _ _ _ _) as [pairB| |] eqn:Hr; simpl; try done.
  intros [= <-]. simpl. split.
  - exists pairA. repeat split; [done | discriminate].
  - exists pairB. split; [|done].
    apply redraw_sound in Hr as [[-> | Hin] _]; done.
Qed.

Lemma generateQuestion_from_pool_witness :
  exists pairA, pairA ∈ allPairs Sample.abc
                /\ q_term Sample.questionA = term pairA
                /\ definition Sample.questionA = def pairA.
Proof.
  destruct (generateQuestion_from_pool 0 Sample.abc Sample.pickA
              Sample.questionA eq_refl) as [(pairA & Hin & Ht & Hd) _].
  exists pairA. split; [exact Hin|]. split; [exact Ht | exact (Hd eq_refl)].
Defined.

End Pool.

(** ** Terms and definitions are trimmed and free of delimiters *)

Section Trimmed.

Lemma trimStart_split (s : list N) :
  exists pre, s = pre ++ trimStart s /\ Forall (fun c => isSpace c = true) pre.
Proof.
  induction s as [|c s (pre & Hs & Hpre)]; simpl.
  - exists []. done.
  - destruct (isSpace c) eqn:Hc.
    + exists (c :: pre). split; [simpl; congruence | by constructor].
    + exists []. done.
Qed.

Lemma trimStart_head (s : list N) (c : N) :
  head (trimStart s) = Some c -> isSpace c = false.
Proof.
  induction s as [|a s IH]; simpl; [discriminate|].
  destruct (isSpace a) eqn:Ha; [exact IH|]. simpl. congruence.
Qed.

Lemma trimEnd_split (s : list N) :
  exists suf, s = trimEnd s ++ suf /\ Forall (fun c => isSpace c = true) suf.
Proof.
  unfold trimEnd. destruct (trimStart_split (rev s)) as (pre & Hs & Hpre).
  exists (rev pre). split.
  - rewrite <- rev_app_distr, <- Hs, rev_involutive. reflexivity.
  - by apply Forall_rev.
Qed.

Lemma trimEnd_last (s : list N) (c : N) :
  last (trimEnd s) = Some c -> isSpace c = false.
Proof.
  unfold trimEnd. destruct (trimStart (rev s)) as [|a t] eqn:E;
    [discriminate|].
  simpl. rewrite last_snoc. intros [= <-].
  apply (trimStart_head (rev s)). by rewrite E.
Qed.

Lemma trim_trimmed (s : list N) : trimmed (trim s).
Proof.
  unfold trim. split; [|apply trimEnd_last].
  intros c Hc.
  destruct (trimEnd_split (trimStart s)) as (suf & Hs & _).
  apply (trimStart_head s c). rewrite Hs.
  destruct (trimEnd (trimStart s)); [discriminate | exact Hc].
Qed.

Lemma trim_Forall (P : N -> Prop) (s : list N) :
  Forall P s -> Forall P (trim s).
Proof.
  intros H. unfold trim.
  destruct (trimStart_split s) as (pre & Hs & _).
  destruct (trimEnd_split (trimStart s)) as (suf & Hs' & _).
  rewrite Hs, Hs' in H.
  apply Forall_app in H as [_ H]. by apply Forall_app in H as [H _].
Qed.

Lemma beforeDelim_noDelim (s : list N) : noDelim (beforeDelim s).
Proof.
  induction s as [|c s IH]; simpl; [constructor|].
  destruct (isDelim c) eqn:Hc; constructor; assumption.
Qed.

(** X4: in every pair the Knowledge Dash extractor emits for a bullet
    point, neither the term nor the definition contains a delimiter or
    starts or ends with white space; the same holds for the term of every
    pair the Concept Matcher extractor emits for a bullet point. *)
Theorem pointPairs_trimmed (p : list N) (pr : Pair) :
  (pr ∈ Dash.pointPairs p ->
   noDelim (term pr) /\ trimmed (term pr)
   /\ noDelim (def pr) /\ trimmed (def pr))
  /\ (pr ∈ Memory.pointPairs p -> noDelim (term pr) /\ trimmed (term pr)).
Proof.
  unfold Dash.pointPairs, Memory.pointPairs.
  destruct (hasDelim p) eqn:H.
  - destruct (split_second p H) as [rest ->]. cbv beta iota. split.
    + intros ->%list_elem_of_singleton. simpl.
      repeat split; try apply trim_trimmed;
        apply trim_Forall, beforeDelim_noDelim.
    + destruct (_ && _); [|by intros ?%elem_of_nil].
      intros ->%list_elem_of_singleton. simpl.
      repeat split; try apply trim_trimmed;
        apply trim_Forall, beforeDelim_noDelim.
  - rewrite split_first, H. split; by intros ?%elem_of_nil.
Qed.

Lemma pointPairs_trimmed_witness :
  noDelim (js "Osmosis") /\ trimmed (js "movement of water").
Proof.
  destruct (proj1 (pointPairs_trimmed (js " Osmosis -  movement of water ")
                     {| term := js "Osmosis";
                        def := js "movement of water" |}))
    as (Ht & _ & _ & Hd).
  - vm_compute. apply list_elem_of_here.
  - split; [exact Ht | exact Hd].
Defined.

End Trimmed.

(** ** Knowledge Dash: what a round keeps *)

Section RoundInvariants.

Import Dash.

Variable data : Props.

(** The three ways [handleAnswer] can go. *)
Lemma handleAnswer_cases (answer : bool) (st : State) :
  handleAnswer answer st = st
  \/ exists q,
       currentQuestion st = Some q /\ feedback st = None
       /\ (answer = isCorrect q \/ answer <> isCorrect q).
Proof.
  unfold handleAnswer.
  destruct (currentQuestion st) as [q|]; [|by left].
  destruct (feedback st); [by left|].
  right. exists q. split; [done|]. split; [done|].
  destruct answer, (isCorrect q); auto.
Qed.

Lemma step_sound (fuel : nat) (ev : Event) (st st' : State) :
  DashUI.sound st -> step fuel data ev st = Returned st' -> DashUI.sound st'.
Proof.
  unfold DashUI.sound.
  intros (Ht & Hs & Hsc & Hdiv & Hl & Hfb & Hlen).
  destruct ev as [rnd|answer|rnd|]; simpl.
  - unfold startGame.
    destruct (generateQuestion fuel data rnd); simpl; try done.
    intros [= <-]. simpl.
    repeat split; try lia; try tauto. apply Z.divide_0_r.
  - intros [= <-].
    destruct (handleAnswer_cases answer st)
      as [-> | (q & Hq & Hf & [-> | Hne])]; [done| |].
    + rewrite (handleAnswer_correct st q Hq Hf). simpl.
      assert (Hnil : timeouts st = []) by tauto. rewrite Hnil. simpl.
      repeat split; try lia; try done.
      apply Z.divide_add_r; [done|]. by apply Z.divide_factor_l.
    + rewrite (handleAnswer_incorrect st q answer Hq Hf Hne). simpl.
      assert (Hnil : timeouts st = []) by tauto. rewrite Hnil. simpl.
      repeat split; try lia; try done.
  - unfold settle. destruct (timeouts st) as [|c cs] eqn:Hts.
    { intros [= <-]. rewrite Hts. done. }
    assert (cs = []) as -> by (destruct cs; [done | simpl in Hlen; lia]).
    unfold settleCallback. destruct (t_lives c <=? _).
    + intros [= <-]. simpl. repeat split; try lia; done.
    + destruct (generateQuestion fuel data rnd); simpl; try done.
      intros [= <-]. simpl. repeat split; try lia; done.
  - intros [= <-]. unfold tick.
    destruct (gameState st); try done.
    destruct (Z.ltb_spec 0 (timeLeft st)); [|done].
    destruct (Z.leb_spec (timeLeft st) 1); simpl;
      repeat split; try lia; try tauto.
Qed.

Lemma initial_sound : DashUI.sound initial.
Proof.
  unfold DashUI.sound. simpl.
  repeat split; try lia; try done. apply Z.divide_0_r.
Qed.

Lemma run_sound (fuel : nat) (evs : list Event) :
  forall st st',
    DashUI.sound st -> run fuel data evs st = Returned st' ->
    DashUI.sound st'.
Proof.
  induction evs as [|ev evs IH]; intros st st' Hinv; simpl.
  - intros [= <-]. done.
  - destruct (step fuel data ev st) as [st1| |] eqn:Hs; simpl; try done.
    apply IH. eapply step_sound; eassumption.
Qed.

(** X5: in every state a run of the component reaches, in whatever order
    its handlers and timers are called, the time left is between 0 and 30,
    the streak is not negative, the score is a multiple of 10 and at least
    [10 * (1 + 2 + ... + streak)], the lives are at most 3, feedback is
    shown exactly while a settle callback is pending, and at most one is
    pending. *)
Theorem round_sound (st : State) :
  reachable data st ->
  0 <= timeLeft st <= 30
  /\ 0 <= streak st
  /\ 5 * streak st * (streak st + 1) <= score st
  /\ (10 | score st)
  /\ lives st <= 3
  /\ (feedback st = None <-> timeouts st = [])
  /\ (length (timeouts st) <= 1)%nat.
Proof.
  intros (fuel & evs & Hrun).
  exact (run_sound fuel evs initial st initial_sound Hrun).
Qed.

Lemma reachable_by_player (st : State) :
  DashUI.reachable data st -> reachable data st.
Proof.
  assert (Hsnoc : forall fuel evs ev s1 s2 s3,
    run fuel data evs s1 = Returned s2 ->
    step fuel data ev s2 = Returned s3 ->
    run fuel data (evs ++ [ev]) s1 = Returned s3).
  { intros fuel evs. induction evs as [|e evs IH]; intros ev s1 s2 s3; simpl.
    - intros [= <-] ->. reflexivity.
    - destruct (step fuel data e s1); simpl; try done. apply IH. }
  assert (Hstep_mono : forall f f' ev s1 s2, (f <= f')%nat ->
    step f data ev s1 = Returned s2 -> step f' data ev s1 = Returned s2).
  { intros f f' ev s1 s2 Hle. destruct ev as [rnd|a|rnd|]; simpl; try done.
    - unfold startGame.
      destruct (generateQuestion f data rnd) as [q| |] eqn:Hg; simpl;
        try done.
      rewrite (generateQuestion_mono f f' data rnd q Hle Hg). done.
    - unfold settle. destruct (timeouts s1); [done|]. unfold settleCallback.
      destruct (t_lives t <=? _); [done|].
      destruct (generateQuestion f data rnd) as [q| |] eqn:Hg; simpl;
        try done.
      rewrite (generateQuestion_mono f f' data rnd q Hle Hg). done. }
  assert (Hrun_mono : forall f f' evs s1 s2, (f <= f')%nat ->
    run f data evs s1 = Returned s2 -> run f' data evs s1 = Returned s2).
  { intros f f' evs. induction evs as [|e evs IH]; intros s1 s2 Hle; simpl;
      [done|].
    destruct (step f data e s1) as [s| |] eqn:Hs; simpl; try done.
    rewrite (Hstep_mono f f' e s1 s Hle Hs). simpl. by apply IH. }
  induction 1 as [|s ev fuel s' _ (f & evs & Hrun) _ Hstep].
  - exists 0%nat, []. reflexivity.
  - exists (max f fuel), (evs ++ [ev]).
    apply (Hsnoc _ _ _ _ s).
    + apply (Hrun_mono f); [lia | done].
    + apply (Hstep_mono fuel); [lia | done].
Qed.

Lemma step_playable (fuel : nat) (ev : Event) (st st' : State) :
  DashUI.sound st -> DashUI.playable st ->
  DashUI.offered st ev = true ->
  step fuel data ev st = Returned st' ->
  DashUI.playable st'.
Proof.
  unfold DashUI.playable.
  intros (_ & _ & _ & _ & _ & Hfb & Hlen) (H0 & Hplay & Hpend) Hoff.
  destruct ev as [rnd|answer|rnd|]; simpl.
  - unfold startGame.
    destruct (generateQuestion fuel data rnd); simpl; try done.
    intros [= <-]. simpl. split; [lia|]. split; [lia|]. intros c _. lia.
  - intros [= <-]. simpl in Hoff.
    destruct (gameState st) eqn:Hg; try done.
    destruct (handleAnswer_cases answer st)
      as [-> | (q & Hq & Hf & [-> | Hne])];
      [rewrite Hg; done| |].
    + rewrite (handleAnswer_correct st q Hq Hf). simpl.
      assert (Hnil : timeouts st = []) by tauto. rewrite Hnil. simpl.
      specialize (Hplay eq_refl Hf).
      split; [lia|]. split; [done|].
      intros c ->%list_elem_of_singleton. left.
      unfold DashUI.livesAfter. simpl. rewrite Bool.eqb_reflx. lia.
    + rewrite (handleAnswer_incorrect st q answer Hq Hf Hne). simpl.
      assert (Hnil : timeouts st = []) by tauto. rewrite Hnil. simpl.
      specialize (Hplay eq_refl Hf).
      split; [lia|]. split; [done|].
      intros c ->%list_elem_of_singleton. left.
      unfold DashUI.livesAfter. simpl.
      replace (Bool.eqb answer (isCorrect q)) with false
        by (destruct answer, (isCorrect q); simpl; congruence).
      lia.
  - unfold settle. destruct (timeouts st) as [|c cs] eqn:Hts.
    { intros [= <-]. rewrite Hts. done. }
    assert (cs = []) as -> by (destruct cs; [done | simpl in Hlen; lia]).
    specialize (Hpend c (list_elem_of_here _ _)).
    unfold settleCallback.
    destruct (Z.leb_spec (t_lives c)
      (if Bool.eqb (t_answer c) (isCorrect (t_question c)) then 0 else 1))
      as [Hle|Hgt].
    + intros [= <-]. simpl. split; [lia|]. split; [done|].
      intros c' ?%elem_of_nil. done.
    + destruct (generateQuestion fuel data rnd); simpl; try done.
      intros [= <-]. simpl.
      assert (0 < lives st).
      { destruct Hpend as [-> | ?]; [|done]. unfold DashUI.livesAfter.
        destruct (Bool.eqb _ _); lia. }
      split; [lia|]. split; [lia|]. intros c' ?%elem_of_nil. done.
  - intros [= <-]. unfold tick.
    destruct (gameState st) eqn:Hg; try (rewrite Hg; done).
    destruct (Z.ltb_spec 0 (timeLeft st)); [|rewrite Hg; done].
    destruct (Z.leb_spec (timeLeft st) 1); simpl.
    + split; [lia|]. split; done.
    + rewrite Hg. split; [lia|]. split; done.
Qed.

(** X6: when the answer buttons are used only in the playing view and the
    start button only in the other two, as the render offers them, the
    lives stay between 0 and 3, and a round that is being played and
    waits for an answer has at least one life left. *)
Theorem lives_in_range (st : State) :
  DashUI.reachable data st ->
  0 <= lives st <= 3
  /\ (gameState st = playing -> feedback st = None -> 0 < lives st).
Proof.
  intros Hreach.
  assert (Hp : DashUI.playable st).
  { induction Hreach as [|s ev fuel s' Hr IH Hoff Hstep].
    - unfold DashUI.playable. simpl. split; [lia|]. split; [lia|].
      intros c ?%elem_of_nil. done.
    - apply (step_playable fuel ev s s'); try done.
      apply reachable_by_player in Hr as (f & evs & Hrun).
      exact (run_sound f evs initial s initial_sound Hrun). }
  apply reachable_by_player in Hreach as (f & evs & Hrun).
  pose proof (run_sound f evs initial st initial_sound Hrun)
    as (_ & _ & _ & _ & Hl & _).
  destruct Hp as (H0 & Hplay & _). repeat split; try lia. exact Hplay.
Qed.

End RoundInvariants.

Section RoundInvariantWitnesses.

Import Dash.

Lemma run_reachable (data : Props) (fuel : nat) (evs : list Event) :
  forall st st',
    DashUI.reachable data st ->
    DashUI.run fuel data evs st = Returned st' ->
    DashUI.reachable data st'.
Proof.
  induction evs as [|ev evs IH]; intros st st' Hr; simpl.
  - intros [= <-]. exact Hr.
  - destruct (DashUI.offered st ev) eqn:Hoff; [|discriminate].
    destruct (step fuel data ev st) as [st1| |] eqn:Hs; simpl; try done.
    apply IH. exact (DashUI.reachable_step data st ev fuel st1 Hr Hoff Hs).
Qed.

Lemma round_sound_witness :
  reachable Sample.abc (Sample.round 30 2 3 12)
  /\ 5 * 2 * (2 + 1) <= score (Sample.round 30 2 3 12).
Proof.
  assert (Hreach : reachable Sample.abc (Sample.round 30 2 3 12)).
  { exists 0%nat,
      ([ Start Sample.pickA; Answer true; Settle Sample.pickA;
         Answer true; Settle Sample.pickA ] ++ repeat Tick 18).
    reflexivity. }
  split; [exact Hreach|].
  destruct (round_sound Sample.abc _ Hreach) as (_ & _ & Hsc & _).
  exact Hsc.
Defined.

Lemma lives_in_range_witness :
  DashUI.reachable Sample.abc (handleAnswer false (Sample.round 0 0 3 30))
  /\ 0 <= lives (handleAnswer false (Sample.round 0 0 3 30)) <= 3.
Proof.
  assert (Hreach : DashUI.reachable Sample.abc
                     (handleAnswer false (Sample.round 0 0 3 30))).
  { apply (run_reachable Sample.abc 0
             [ Start Sample.pickA; Answer false ] initial);
      [apply DashUI.reachable_initial | reflexivity]. }
  split; [exact Hreach|].
  exact (proj1 (lives_in_range Sample.abc _ Hreach)).
Defined.

End RoundInvariantWitnesses.

(** ** Knowledge Dash: the clock and the restart *)

Section ClockAndRestart.

Import Dash.

Variable data : Props.

Lemma tick_playing (st : State) :
  gameState st = playing ->
  1 < timeLeft st ->
  tick st = setTimeLeft (fun prev => prev - 1) st.
Proof.
  intros Hg Ht. unfold tick. rewrite Hg.
  destruct (Z.ltb_spec 0 (timeLeft st)); [|lia].
  destruct (Z.leb_spec (timeLeft st) 1); [lia | reflexivity].
Qed.

Lemma ticks_playing (st : State) (k : nat) :
  gameState st = playing ->
  Z.of_nat k < timeLeft st ->
  Nat.iter k tick st = setTimeLeft (fun prev => prev - Z.of_nat k) st.
Proof.
  intros Hg. induction k as [|k IH]; intros Hk.
  - simpl. destruct st. unfold setTimeLeft. simpl. f_equal. lia.
  - simpl. rewrite IH by lia. rewrite tick_playing; simpl; [|done|lia].
    unfold setTimeLeft. simpl. f_equal. lia.
Qed.


(** X7: left alone, a round that is being played with [n] seconds on the
    clock is still being played after every smaller number of ticks, with
    one second less per tick, and is ended by the [n]-th tick with the
    clock at 0; further ticks change nothing, and the ticks change neither
    score, streak, lives nor the question. *)
Theorem countdown_runs_out (st : State) (n : nat) :
  gameState st = playing ->
  timeLeft st = Z.of_nat (S n) ->
  (forall k, (k <= n)%nat ->
     Nat.iter k tick st = setTimeLeft (fun prev => prev - Z.of_nat k) st)
  /\ (forall m,
        Nat.iter (S n + m) tick st
        = setTimeLeft (fun _ => 0) (setGameState ended st)).
Proof.
  intros Hg Ht. split.
  - intros k Hk. apply ticks_playing; [done | lia].
  - intros m. induction m as [|m IH].
    + rewrite Nat.add_0_r. simpl. rewrite ticks_playing by (done || lia).
      unfold tick. simpl. rewrite Hg.
      destruct (Z.ltb_spec 0 (timeLeft st - Z.of_nat n)); [|lia].
      destruct (Z.leb_spec (timeLeft st - Z.of_nat n) 1); [|lia].
      reflexivity.
    + rewrite Nat.add_succ_r. cbn [Nat.iter nat_rect] in *.
      change (nat_rect (fun _ => State) st (fun _ => tick) (S n + m))
        with (Nat.iter (S n + m) tick st).
      rewrite IH. reflexivity.
Qed.

(** X8: [startGame] does not cancel a pending settle callback. When the
    callback of an answer that took the last life is still pending at the
    restart, it ends the new round as soon as it fires: the state is
    [ended] with 3 lives, 30 seconds and score 0. *)
Theorem restart_keeps_pending_settle (fuel : nat) (rnd rnd' : nat -> Z)
    (st : State) (c : Timeout) (cs : list Timeout) (q : option Question) :
  timeouts st = c :: cs ->
  DashUI.livesAfter c <= 0 ->
  generateQuestion fuel data rnd = Returned q ->
  exists st',
    run fuel data [ Start rnd; Settle rnd' ] st = Returned st'
    /\ gameState st' = ended
    /\ lives st' = 3 /\ timeLeft st' = 30 /\ score st' = 0
    /\ currentQuestion st' = q.
Proof.
  intros Hts Hfatal Hgen. cbn [run step bind].
  unfold startGame. rewrite Hgen. cbn [bind].
  unfold settle. simpl. rewrite Hts. unfold settleCallback.
  unfold DashUI.livesAfter in Hfatal.
  destruct (Z.leb_spec (t_lives c)
    (if Bool.eqb (t_answer c) (isCorrect (t_question c)) then 0 else 1))
    as [_|Hgt]; [|destruct (Bool.eqb _ _); lia].
  eexists. split; [reflexivity|]. simpl. done.
Qed.

End ClockAndRestart.

Section ClockAndRestartWitnesses.

Import Dash.

Lemma countdown_runs_out_witness :
  Nat.iter 30 tick (Sample.round 40 0 2 30)
  = setTimeLeft (fun _ => 0) (setGameState ended (Sample.round 40 0 2 30)).
Proof.
  exact (proj2 (countdown_runs_out (Sample.round 40 0 2 30) 29
                  eq_refl eq_refl) 0%nat).
Defined.

Lemma restart_keeps_pending_settle_witness :
  exists st st',
    DashUI.run 0 Sample.abc Scenario.lastSecond initial = Returned st
    /\ DashUI.reachable Sample.abc st
    /\ DashUI.offered st (Start Sample.pickA) = true
    /\ run 0 Sample.abc [ Start Sample.pickA; Settle Sample.pickA ] st
       = Returned st'
    /\ gameState st' = ended /\ lives st' = 3 /\ timeLeft st' = 30.
Proof.
  destruct (DashUI.run 0 Sample.abc Scenario.lastSecond initial)
    as [st| |] eqn:Hrun; try (vm_compute in Hrun; discriminate).
  assert (Hts : exists c, timeouts st = [c] /\ DashUI.livesAfter c <= 0).
  { vm_compute in Hrun. injection Hrun as <-.
    eexists. split; [reflexivity|]. vm_compute. discriminate. }
  destruct Hts as (c & Hts & Hfatal).
  destruct (restart_keeps_pending_settle Sample.abc 0
              Sample.pickA Sample.pickA st c [] (Some Sample.questionA)
              Hts Hfatal eq_refl)
    as (st' & Hrun' & Hg & Hl & Ht & _).
  exists st, st'. split; [reflexivity|].
  split.
  { apply (run_reachable Sample.abc 0 Scenario.lastSecond initial);
      [apply DashUI.reachable_initial | exact Hrun]. }
  split.
  { vm_compute in Hrun. injection Hrun as <-. reflexivity. }
  repeat split; assumption.
Defined.

End ClockAndRestartWitnesses.

(** ** Concept Matcher: the deck *)

Section Deck.

Import Memory MemoryPlay.

Lemma deckFrom_cons (k : nat) (p : Pair) (ps : list Pair) :
  deckFrom k (p :: ps) = pairCards k p ++ deckFrom (S k) ps.
Proof.
  unfold deckFrom. simpl. rewrite Nat.add_0_r.
  apply (f_equal (app (pairCards k p))), (f_equal (@concat GameCard)).
  apply imap_ext. intros i x _. simpl. f_equal. lia.
Qed.

Lemma deckFrom_ids (ps : list Pair) :
  forall k, List.map id (deckFrom k ps) = seq (k * 2) (length ps * 2).
Proof.
  induction ps as [|p ps IH]; intros k; [reflexivity|].
  rewrite deckFrom_cons, map_app, IH. simpl.
  replace (k * 2 + 1)%nat with (S (k * 2)) by lia.
  replace (S k * 2)%nat with (S (S (k * 2))) by lia. reflexivity.
Qed.

Lemma deckFrom_pairIds (ps : list Pair) :
  forall k j,
    length (filter (fun c => pairId c = j) (deckFrom k ps))
    = if decide (k <= j < k + length ps)%nat then 2%nat else 0%nat.
Proof.
  induction ps as [|p ps IH]; intros k j.
  - simpl. case_decide; [lia | reflexivity].
  - rewrite deckFrom_cons, filter_app, length_app, IH.
    unfold pairCards. rewrite !filter_cons, filter_nil. simpl.
    repeat case_decide; simpl; lia.
Qed.

Lemma deckFrom_cards (ps : list Pair) :
  forall k,
    Forall (fun c => isMatched c = false
                     /\ (id c = pairId c * 2 \/ id c = pairId c * 2 + 1)%nat)
      (deckFrom k ps).
Proof.
  induction ps as [|p ps IH]; intros k; [constructor|].
  rewrite deckFrom_cons. apply Forall_app. split; [|apply IH].
  unfold pairCards.
  constructor; [simpl; auto|]. constructor; [simpl; auto|]. constructor.
Qed.

Lemma deckFrom_members (ps : list Pair) (i : nat) (p : Pair) :
  forall k,
    ps !! i = Some p ->
    {| id := (k + i) * 2; content := term p; type := termCard;
       pairId := k + i; isFlipped := false; isMatched := false |}
      ∈ deckFrom k ps
    /\ {| id := (k + i) * 2 + 1; content := def p; type := definitionCard;
          pairId := k + i; isFlipped := false; isMatched := false |}
      ∈ deckFrom k ps.
Proof.
  revert i. induction ps as [|p0 ps IH]; intros i k Hi; [done|].
  rewrite deckFrom_cons. destruct i as [|i]; simpl in Hi.
  - injection Hi as ->. rewrite Nat.add_0_r.
    split; apply elem_of_app; left; unfold pairCards;
      [apply list_elem_of_here
      | apply list_elem_of_further, list_elem_of_here].
  - destruct (IH i (S k) Hi) as [H1 H2].
    replace (k + S i)%nat with (S k + i)%nat by lia.
    split; apply elem_of_app; right; assumption.
Qed.

Lemma fresh_Permutation (deck deck' : list GameCard) :
  deck' ≡ₚ deck -> fresh deck -> fresh deck'.
Proof.
  intros Hp (Hnd & Hall & Hc). unfold fresh.
  assert (Hm : List.map id deck' ≡ₚ List.map id deck)
    by (by apply Permutation_map).
  split; [by rewrite Hm|]. split; [|by rewrite Hp].
  intros i. rewrite Hm, (Permutation_length Hp). apply Hall.
Qed.

Lemma deckFrom_fresh (ps : list Pair) : fresh (deckFrom 0 ps).
Proof.
  assert (Hlen : length (deckFrom 0 ps) = (length ps * 2)%nat).
  { rewrite <- (length_map id), deckFrom_ids. apply length_seq. }
  unfold fresh. rewrite deckFrom_ids. split; [apply NoDup_seq|].
  split; [|apply deckFrom_cards].
  intros i. rewrite elem_of_seq, Hlen. lia.
Qed.

(** X9: when the two shuffles of [initGame] only rearrange their arrays,
    the game starts with two tiles for each of the first four extracted
    pairs (all of them when there are fewer): the tile ids are distinct,
    every pair number below the number of pairs is carried by exactly two
    tiles and no other number by any, the term and the definition of
    every selected pair are on tiles with that pair's number, no tile is
    matched, nothing is selected and both counters are 0. *)
Theorem initGame_deck (notes : list StudyNote)
    (sortPairs : list Pair -> list Pair)
    (sortCards : list GameCard -> list GameCard) (st : State) :
  (forall l, sortPairs l ≡ₚ l) ->
  (forall l, sortCards l ≡ₚ l) ->
  let st' := initGame notes sortPairs sortCards st in
  let selected := take 4 (sortPairs (extractPairs notes)) in
  let n := min 4 (length (extractPairs notes)) in
  length (cards st') = (n * 2)%nat
  /\ NoDup (List.map id (cards st'))
  /\ (forall j, length (filter (fun c => pairId c = j) (cards st'))
                = if decide (j < n)%nat then 2%nat else 0%nat)
  /\ (forall i p, selected !! i = Some p ->
        exists ct cd,
          ct ∈ cards st' /\ cd ∈ cards st'
          /\ pairId ct = i /\ pairId cd = i
          /\ type ct = termCard /\ type cd = definitionCard
          /\ content ct = term p /\ content cd = def p)
  /\ Forall (fun c => isMatched c = false) (cards st')
  /\ flippedCards st' = [] /\ matches st' = 0 /\ moves st' = 0.
Proof.
  intros Hsp Hsc st' selected n.
  assert (Hcards : cards st' = sortCards (deckFrom 0 selected))
    by reflexivity.
  assert (Hn : length selected = n).
  { subst selected n. rewrite length_take, (Permutation_length (Hsp _)).
    lia. }
  pose proof (Hsc (deckFrom 0 selected)) as Hperm.
  pose proof (fresh_Permutation _ _ Hperm (deckFrom_fresh selected))
    as (Hnd & _ & Hall).
  rewrite Hcards.
  split.
  { rewrite (Permutation_length Hperm), <- (length_map id), deckFrom_ids,
      length_seq. lia. }
  split; [exact Hnd|].
  split.
  { intros j. rewrite Hperm, deckFrom_pairIds, Hn.
    repeat case_decide; lia. }
  split.
  { intros i p Hi. destruct (deckFrom_members selected i p 0 Hi) as [H1 H2].
    eexists _, _. rewrite !Hperm.
    split; [exact H1|]. split; [exact H2|]. simpl. done. }
  split; [|done].
  eapply Forall_impl; [exact Hall|]. by intros c [? _].
Qed.

Lemma initGame_deck_witness :
  length (cards (initGame Sample.biology (fun l => l) (fun l => l) initial))
  = 8%nat
  /\ NoDup (List.map id
              (cards (initGame Sample.biology (fun l => l) (fun l => l)
                        initial))).
Proof.
  destruct (initGame_deck Sample.biology (fun l => l) (fun l => l) initial
              (fun l => reflexivity l) (fun l => reflexivity l))
    as (Hlen & Hnd & _).
  split; [exact Hlen | exact Hnd].
Defined.

End Deck.

(** ** Concept Matcher: turning two tiles *)

Section Resolution.

Import Memory MemoryPlay.

Lemma findCard_Some (cs : list GameCard) (i : nat) (c : GameCard) :
  findCard cs i = Some c -> c ∈ cs /\ id c = i.
Proof.
  unfold findCard. intros H. apply find_some in H as [Hin Heq].
  split; [by apply list_elem_of_In | by apply Nat.eqb_eq].
Qed.

Lemma findCard_NoDup (cs : list GameCard) (c : GameCard) :
  NoDup (List.map id cs) -> c ∈ cs -> findCard cs (id c) = Some c.
Proof.
  unfold findCard. induction cs as [|c0 cs IH]; simpl.
  - by intros _ ?%elem_of_nil.
  - intros Hnd Hin. apply NoDup_cons in Hnd as [Hnotin Hnd].
    apply elem_of_cons in Hin as [-> | Hin].
    + by rewrite Nat.eqb_refl.
    + destruct (Nat.eqb_spec (id c0) (id c)) as [Heq|_]; [|by apply IH].
      exfalso. apply Hnotin. rewrite Heq.
      apply list_elem_of_In, in_map, list_elem_of_In, Hin.
Qed.

Lemma findCard_map (g : GameCard -> GameCard) (cs : list GameCard) (i : nat) :
  (forall c, id (g c) = id c) ->
  findCard (List.map g cs) i = g <$> findCard cs i.
Proof.
  intros Hg. unfold findCard. induction cs as [|c cs IH]; simpl; [done|].
  rewrite Hg. destruct (id c =? i)%nat; [done | exact IH].
Qed.

(** Two clicks on distinct unmatched tiles of the deck, from an empty
    selection with no timeout pending, and the timeout they set. *)
Lemma resolve_selection (st : State) (a b : nat) (ca cb : GameCard) :
  flippedCards st = [] ->
  timeouts st = [] ->
  a <> b ->
  findCard (cards st) a = Some ca ->
  findCard (cards st) b = Some cb ->
  isMatched ca = false ->
  isMatched cb = false ->
  fire 0 (handleCardClick b (handleCardClick a st)) =
  if (pairId ca =? pairId cb)%nat then
    {| cards := List.map (fun c => if (id c =? a)%nat || (id c =? b)%nat
                                   then markMatched c else c) (cards st);
       flippedCards := []; matches := matches st + 1;
       moves := moves st + 1; timeouts := [] |}
  else
    {| cards := cards st; flippedCards := []; matches := matches st;
       moves := moves st + 1; timeouts := [] |}.
Proof.
  intros Hfl Hts Hab Ha Hb Hma Hmb.
  destruct (findCard_Some _ _ _ Ha) as [_ Hida].
  destruct (findCard_Some _ _ _ Hb) as [_ Hidb].
  assert (H1 : handleCardClick a st = setFlippedCards [a] st).
  { unfold handleCardClick. rewrite Hfl, Ha.
    rewrite bool_decide_eq_false_2 by (by intros ?%elem_of_nil).
    cbn [from_option]. rewrite Hma. reflexivity. }
  rewrite H1. unfold handleCardClick.
  cbn [flippedCards cards setFlippedCards].
  rewrite Hb. cbn [from_option]. rewrite Hmb.
  rewrite bool_decide_eq_false_2
    by (intros ?%list_elem_of_singleton; congruence).
  cbn [length Nat.eqb orb app lookup list_lookup mbind option_bind].
  rewrite Ha, Hb. cbn [mbind option_bind].
  destruct (pairId ca =? pairId cb)%nat; unfold fire, setTimeout;
    cbn [timeouts setMoves setFlippedCards]; rewrite Hts; simpl;
    [|reflexivity].
  rewrite Hida, Hidb. reflexivity.
Qed.

(** X10: from an empty selection with no timeout pending, turning two
    distinct unmatched tiles and letting the timeout fire counts one move
    and empties the selection; when the two tiles carry the same pair
    number, exactly the tiles with their two ids become matched and the
    match counter goes up by one; otherwise tiles and match counter stay
    as they were. *)
Theorem turn_two_tiles (st : State) (a b : nat) (ca cb : GameCard) :
  flippedCards st = [] ->
  timeouts st = [] ->
  a <> b ->
  findCard (cards st) a = Some ca ->
  findCard (cards st) b = Some cb ->
  isMatched ca = false ->
  isMatched cb = false ->
  let st' := fire 0 (handleCardClick b (handleCardClick a st)) in
  flippedCards st' = [] /\ timeouts st' = []
  /\ moves st' = moves st + 1
  /\ (pairId ca = pairId cb ->
      matches st' = matches st + 1
      /\ length (cards st') = length (cards st)
      /\ forall i c, cards st !! i = Some c ->
           cards st' !! i
           = Some (if decide (id c = a \/ id c = b)
                   then markMatched c else c))
  /\ (pairId ca <> pairId cb ->
      matches st' = matches st /\ cards st' = cards st).
Proof.
  intros Hfl Hts Hab Ha Hb Hma Hmb st'. subst st'.
  rewrite (resolve_selection st a b ca cb) by assumption.
  destruct (Nat.eqb_spec (pairId ca) (pairId cb)) as [Heq|Hne]; simpl.
  - repeat split; try done.
    + by rewrite length_map.
    + intros i c Hi. rewrite list_lookup_fmap, Hi. simpl. f_equal.
      destruct (Nat.eqb_spec (id c) a), (Nat.eqb_spec (id c) b);
        case_decide; simpl; try reflexivity; tauto.
  - repeat split; try done.
Qed.

Lemma turn_two_tiles_witness :
  let st := initGame Sample.biology (fun l => l) (fun l => l) initial in
  let st' := fire 0 (handleCardClick 1 (handleCardClick 0 st)) in
  matches st' = 1 /\ moves st' = 1 /\ flippedCards st' = [].
Proof.
  destruct (turn_two_tiles
              (initGame Sample.biology (fun l => l) (fun l => l) initial)
              0 1
              {| id := 0; content := js "Mitosis"; type := termCard;
                 pairId := 0; isFlipped := false; isMatched := false |}
              {| id := 1; content := js "division of a cell nucleus";
                 type := definitionCard;
                 pairId := 0; isFlipped := false; isMatched := false |})
    as (Hfl & _ & Hmv & Hmatch & _); try reflexivity; try discriminate.
  destruct (Hmatch eq_refl) as (Hm & _).
  split; [exact Hm|]. split; [exact Hmv | exact Hfl].
Defined.

End Resolution.

(** ** Concept Matcher: a whole game *)

Section WholeGame.

Import Memory MemoryPlay.

Variable notes : list StudyNote.

Lemma markBelow_id (k : nat) (c : GameCard) :
  id (markBelow k c) = id c /\ pairId (markBelow k c) = pairId c.
Proof. unfold markBelow. destruct (pairId c <? k)%nat; done. Qed.

Lemma fresh_find (deck : list GameCard) (i : nat) :
  fresh deck ->
  (i < length deck)%nat ->
  exists c,
    findCard deck i = Some c /\ isMatched c = false
    /\ (i = pairId c * 2 \/ i = pairId c * 2 + 1)%nat.
Proof.
  intros (Hnd & Hall & Hc) Hi.
  apply Hall, list_elem_of_In, in_map_iff in Hi as (c & Hid & Hin).
  apply list_elem_of_In in Hin.
  exists c. split; [rewrite <- Hid; by apply findCard_NoDup|].
  rewrite Forall_forall in Hc. destruct (Hc c Hin) as [Hm Hp].
  split; [done|]. by rewrite <- Hid.
Qed.

(** One pair played on a fresh deck whose pairs below [k] are matched. *)
Lemma playPair_step (deck : list GameCard) (k : nat) (st : State) :
  fresh deck ->
  (k * 2 + 1 < length deck)%nat ->
  cards st = List.map (markBelow k) deck ->
  flippedCards st = [] ->
  timeouts st = [] ->
  playPair notes k st =
  {| cards := List.map (markBelow (S k)) deck; flippedCards := [];
     matches := matches st + 1; moves := moves st + 1; timeouts := [] |}.
Proof.
  intros Hfresh Hk Hcards Hfl Hts.
  destruct (fresh_find deck (k * 2) Hfresh ltac:(lia))
    as (ca & Hfa & Hma & Hpa).
  destruct (fresh_find deck (k * 2 + 1) Hfresh ltac:(lia))
    as (cb & Hfb & Hmb & Hpb).
  assert (Hka : pairId ca = k) by lia.
  assert (Hkb : pairId cb = k) by lia.
  assert (Hsame : forall c, pairId c = k -> markBelow k c = c).
  { intros c Hc. unfold markBelow.
    destruct (Nat.ltb_spec (pairId c) k); [lia | reflexivity]. }
  unfold playPair, step.
  rewrite (resolve_selection st (k * 2) (k * 2 + 1) ca cb);
    try assumption; try lia.
  - rewrite Hka, Hkb, Nat.eqb_refl, Hcards, map_map. f_equal.
    apply map_ext_in. intros c Hin.
    destruct (markBelow_id k c) as [-> _].
    destruct Hfresh as (_ & _ & Hc). rewrite Forall_forall in Hc.
    destruct (Hc c ltac:(by apply list_elem_of_In)) as [_ Hp].
    unfold markBelow.
    destruct (Nat.eqb_spec (id c) (k * 2)),
             (Nat.eqb_spec (id c) (k * 2 + 1)),
             (Nat.ltb_spec (pairId c) k),
             (Nat.ltb_spec (pairId c) (S k));
      simpl; try reflexivity; lia.
  - rewrite Hcards, findCard_map, Hfa by (intros c; apply markBelow_id).
    simpl. by rewrite Hsame.
  - rewrite Hcards, findCard_map, Hfb by (intros c; apply markBelow_id).
    simpl. by rewrite Hsame.
Qed.

Lemma playPairs_state (deck : list GameCard) (st : State) :
  fresh deck ->
  cards st = deck ->
  flippedCards st = [] ->
  timeouts st = [] ->
  forall k,
    (k * 2 <= length deck)%nat ->
    playPairs notes k st =
    {| cards := List.map (markBelow k) deck; flippedCards := [];
       matches := matches st + Z.of_nat k; moves := moves st + Z.of_nat k;
       timeouts := [] |}.
Proof.
  intros Hfresh Hcards Hfl Hts k. induction k as [|k IH]; intros Hk.
  - simpl. destruct st as [cs fl m mv ts]. simpl in *. subst.
    f_equal; try lia.
    rewrite <- (map_id deck) at 1. apply map_ext. intros c. reflexivity.
  - cbn [playPairs]. rewrite IH by lia.
    assert (Heven : (k * 2 + 1 < length deck)%nat) by lia.
    rewrite (playPair_step deck k); try done.
    simpl. f_equal; lia.
Qed.

(** X11: on a freshly dealt game with no timeout pending, turning the two
    tiles of pair 0, then of pair 1, and so on, each time letting the
    timeout fire, leaves after [k] pairs both counters at [k], the
    selection empty and exactly the tiles of the pairs below [k] matched;
    the game is over exactly when [k] is positive and all pairs have been
    played. *)
Theorem play_all_pairs (sortPairs : list Pair -> list Pair)
    (sortCards : list GameCard -> list GameCard) (st0 : State) (k : nat) :
  (forall l, sortCards l ≡ₚ l) ->
  timeouts st0 = [] ->
  let st := initGame notes sortPairs sortCards st0 in
  (k * 2 <= length (cards st))%nat ->
  let stk := playPairs notes k st in
  matches stk = Z.of_nat k
  /\ moves stk = Z.of_nat k
  /\ flippedCards stk = []
  /\ length (cards stk) = length (cards st)
  /\ (forall c, c ∈ cards stk -> isMatched c = true <-> (pairId c < k)%nat)
  /\ (isGameOver stk = true <->
      (0 < k)%nat /\ (k * 2)%nat = length (cards st)).
Proof.
  intros Hsc Hts st Hk stk.
  set (deck := cards st) in *.
  assert (Hfresh : fresh deck).
  { subst deck st. cbn [initGame cards setCards setFlippedCards setMatches
                          setMoves].
    eapply fresh_Permutation; [apply Hsc|]. apply deckFrom_fresh. }
  assert (Hstk : stk =
    {| cards := List.map (markBelow k) deck; flippedCards := [];
       matches := Z.of_nat k; moves := Z.of_nat k; timeouts := [] |}).
  { subst stk. rewrite (playPairs_state deck st Hfresh); try done. }
  rewrite Hstk. cbn [matches moves flippedCards cards].
  split; [done|]. split; [done|]. split; [done|].
  split; [by rewrite length_map|]. split.
  - intros c Hin. apply list_elem_of_In, in_map_iff in Hin as (c0 & <- & Hin).
    destruct Hfresh as (_ & _ & Hc). rewrite Forall_forall in Hc.
    destruct (Hc c0 ltac:(by apply list_elem_of_In)) as [Hm _].
    unfold markBelow. destruct (Nat.ltb_spec (pairId c0) k); simpl.
    + split; [lia | reflexivity].
    + rewrite Hm. split; [discriminate | lia].
  - unfold isGameOver. cbn [matches cards]. rewrite length_map.
    rewrite andb_true_iff, Z.ltb_lt, Z.eqb_eq. lia.
Qed.

End WholeGame.

Lemma play_all_pairs_witness :
  Memory.isGameOver
    (MemoryPlay.playPairs Sample.biology 4
       (Memory.initGame Sample.biology (fun l => l) (fun l => l)
          Memory.initial)) = true
  /\ Memory.isGameOver
       (MemoryPlay.playPairs Sample.biology 3
          (Memory.initGame Sample.biology (fun l => l) (fun l => l)
             Memory.initial)) <> true.
Proof.
  split.
  - apply (play_all_pairs Sample.biology (fun l => l) (fun l => l)
             Memory.initial 4 (fun l => reflexivity l) eq_refl);
      [vm_compute; lia|].
    split; [lia | reflexivity].
  - intros H.
    apply (play_all_pairs Sample.biology (fun l => l) (fun l => l)
             Memory.initial 3 (fun l => reflexivity l) eq_refl) in H;
      [|vm_compute; lia].
    destruct H as [_ H]. vm_compute in H. discriminate.
Defined.

(** ** Concept Matcher: what the tiles can show *)

Section TileTexts.

Import Memory.

Lemma game_pointPairs_bounds (point : list N) (pr : Pair) :
  pr ∈ pointPairs point ->
  (length (term pr) < 40)%nat /\ (5 < length (def pr) <= 103)%nat.
Proof.
  unfold pointPairs.
  destruct (split point) as [|a [|b rest]]; try by intros ?%elem_of_nil.
  destruct (Nat.ltb_spec (length (trim a)) 40); cbn [andb];
    [|by intros ?%elem_of_nil].
  destruct (Nat.ltb_spec 5 (length (trim b))); cbn [andb];
    [|by intros ?%elem_of_nil].
  intros ->%list_elem_of_singleton. cbn [term def]. split; [done|].
  unfold substring0. rewrite length_app, length_take.
  assert (Hdots : length (js "...") = 3%nat) by reflexivity.
  destruct (Nat.ltb_spec 100 (length (trim b)));
    [rewrite Hdots | cbn [length]]; lia.
Qed.

(** X12: every pair the game-specific extraction hands to the shuffle has
    a definition of at most 103 characters; a pair taken from a bullet
    point has a term of fewer than 40 and a definition of more than 5
    characters; a pair that is not from a bullet point is a note's
    heading with at most 100 characters of its first point. *)
Theorem extractPairs_bounds (notes : list StudyNote) (pr : Pair) :
  pr ∈ extractPairs notes ->
  (length (def pr) <= 103)%nat
  /\ ((pr ∈ qualifying notes
       /\ (length (term pr) < 40)%nat /\ (5 < length (def pr))%nat)
      \/ (exists note p0 rest,
            note ∈ take 4 notes /\ points note = p0 :: rest
            /\ term pr = heading note /\ def pr = take 100 p0
            /\ (length (def pr) <= 100)%nat)).
Proof.
  intros Hin.
  assert (Hq : pr ∈ qualifying notes ->
    (length (term pr) < 40)%nat /\ (5 < length (def pr) <= 103)%nat).
  { unfold qualifying. rewrite list_elem_of_In, in_flat_map.
    intros (note & _ & Hp). apply in_flat_map in Hp as (point & _ & Hp).
    apply (game_pointPairs_bounds point). by apply list_elem_of_In. }
  assert (Hcases : pr ∈ qualifying notes
                   \/ pr ∈ flat_map fallbackPair (take 4 notes)).
  { unfold extractPairs in Hin.
    destruct (length (qualifying notes) <? 3)%nat; [|by left].
    by apply elem_of_app in Hin. }
  destruct Hcases as [H|H].
  - destruct (Hq H) as [Ht Hd]. split; [lia|]. left. split; [done|]. lia.
  - apply list_elem_of_In, in_flat_map in H as (note & Hnote & Hp).
    unfold fallbackPair in Hp.
    destruct (points note) as [|p0 rest] eqn:E; [destruct Hp|].
    destruct Hp as [<- | []]. cbn [term def]. unfold substring0.
    rewrite length_take. split; [lia|]. right.
    exists note, p0, rest. rewrite list_elem_of_In.
    repeat split; try done. lia.
Qed.

Lemma extractPairs_bounds_witness :
  (length (js "movement of water") <= 103)%nat.
Proof.
  apply (extractPairs_bounds Sample.biology
           {| term := js "Osmosis"; def := js "movement of water" |}).
  vm_compute. apply list_elem_of_further, list_elem_of_here.
Defined.

End TileTexts.

(** ** Interactive Practice: selections and reveals *)

Section Practice.

Import Exam.

Variable mcq : list MCQQuestion.

Lemma step_selection (ev : ExamUI.Event) (st : State) (idx : nat)
    (o : list N) :
  selectedOptions st !! idx = Some o ->
  truthy o = true ->
  ExamUI.offered mcq st ev = true ->
  ExamUI.isReset ev = false ->
  selectedOptions (ExamUI.step mcq ev st) !! idx = Some o.
Proof.
  intros Hsel Ho Hoff Hreset.
  destruct ev as [i opt|i v|i| |]; simpl in *; try done.
  unfold handleOptionClick.
  destruct (showOverallAnswers st) eqn:Hshow; [done|].
  destruct (mcq !! i) as [q|]; [|done]. simpl.
  destruct (decide (i = idx)) as [->|Hne]; [|by rewrite lookup_insert_ne].
  apply andb_true_iff in Hoff as [_ Hoff].
  unfold showsVerdict, hasAnswered in Hoff.
  rewrite Hsel, Hshow in Hoff. simpl in Hoff. rewrite Ho in Hoff.
  discriminate.
Qed.

(** X13: once a question has a recorded, non-empty selection, no sequence
    of events the render offers changes it, unless it contains a reset:
    the option buttons of an answered question are disabled while the
    answers are hidden, and clicks are ignored while they are shown. *)
Theorem selection_kept (evs : list ExamUI.Event) (st st' : State)
    (idx : nat) (o : list N) :
  selectedOptions st !! idx = Some o ->
  truthy o = true ->
  forallb (fun ev => negb (ExamUI.isReset ev)) evs = true ->
  ExamUI.run mcq evs st = Some st' ->
  selectedOptions st' !! idx = Some o.
Proof.
  revert st. induction evs as [|ev evs IH]; intros st Hsel Ho Hnr; simpl.
  - by intros [= <-].
  - simpl in Hnr. apply andb_true_iff in Hnr as [Hev Hnr].
    apply negb_true_iff in Hev.
    destruct (ExamUI.offered mcq st ev) eqn:Hoff; [|discriminate].
    apply IH; [|done|done]. by apply step_selection.
Qed.

(** X14: revealing the model answer of one short question leaves every
    other question as it was, and leaves the selections and the drafts;
    doing it twice gives back what every question showed before; while
    the answers are hidden it flips what the question itself shows. *)
Theorem toggleShortReveal_independent (idx : nat) (st : State) :
  (forall j, j <> idx ->
     isRevealed j (toggleShortReveal idx st) = isRevealed j st)
  /\ (forall j,
        isRevealed j (toggleShortReveal idx (toggleShortReveal idx st))
        = isRevealed j st)
  /\ (showOverallAnswers st = false ->
      isRevealed idx (toggleShortReveal idx st) = negb (isRevealed idx st))
  /\ selectedOptions (toggleShortReveal idx st) = selectedOptions st
  /\ shortAnswers (toggleShortReveal idx st) = shortAnswers st.
Proof.
  unfold isRevealed, toggleShortReveal. simpl. repeat split.
  - intros j Hj. by rewrite lookup_insert_ne.
  - intros j. destruct (decide (j = idx)) as [->|Hj].
    + rewrite !lookup_insert_eq. simpl. by rewrite negb_involutive.
    + by rewrite !lookup_insert_ne.
  - intros ->. rewrite lookup_insert_eq. simpl. by rewrite !orb_false_r.
Qed.

End Practice.

Lemma selection_kept_witness :
  exists st',
    ExamUI.run Sample.mcq1
      [ ExamUI.ToggleShow; ExamUI.ClickOption 0 (js "4"); ExamUI.ToggleShow ]
      Sample.answered = Some st'
    /\ Exam.selectedOptions st' !! 0%nat = Some (js "3").
Proof.
  eexists. split; [reflexivity|].
  apply (selection_kept Sample.mcq1
           [ ExamUI.ToggleShow; ExamUI.ClickOption 0 (js "4");
             ExamUI.ToggleShow ] Sample.answered); reflexivity.
Defined.

Lemma toggleShortReveal_independent_witness :
  Exam.isRevealed 0 (Exam.toggleShortReveal 0 Sample.answered) = true.
Proof.
  destruct (toggleShortReveal_independent 0 Sample.answered)
    as (_ & _ & H & _).
  rewrite (H eq_refl). reflexivity.
Defined.

(** ** Session history *)

Section SessionHistory.

Import History.

Lemma filter_all {A} (P : A -> Prop) `{!forall x, Decision (P x)}
    (l : list A) :
  Forall P l -> filter P l = l.
Proof.
  induction 1 as [|x l Hx _ IH]; [done|].
  by rewrite filter_cons_True, IH.
Qed.

Lemma others_Forall (i : list N) (prev : list StudyBuddyResponse) :
  Forall (fun item => id item <> i) (filter (fun item => id item <> i) prev).
Proof.
  apply Forall_forall. intros x Hx. by apply list_elem_of_filter in Hx as [? _].
Qed.

Lemma saveToHistory_cons (session : StudyBuddyResponse)
    (prev : list StudyBuddyResponse) :
  saveToHistory session prev
  = session :: take 14 (filter (fun item => id item <> id session) prev).
Proof. reflexivity. Qed.

(** X15: [saveToHistory] puts the session first and keeps at most 15
    sessions; every other session it keeps is one of the earlier list,
    with another id, in the earlier order; no earlier session with
    another id is lost while the earlier list has fewer than 15 entries;
    and when the earlier ids were distinct, the new ids are distinct. *)
Theorem saveToHistory_upsert (session : StudyBuddyResponse)
    (prev : list StudyBuddyResponse) :
  let h := saveToHistory session prev in
  head h = Some session
  /\ (length h <= 15)%nat
  /\ tail h `sublist_of` prev
  /\ (forall x, x ∈ tail h -> id x <> id session)
  /\ ((length prev < 15)%nat ->
      forall x, x ∈ prev -> id x <> id session -> x ∈ h)
  /\ (NoDup (List.map id prev) -> NoDup (List.map id h)).
Proof.
  intros h. subst h. rewrite saveToHistory_cons. cbn [head tail].
  set (others := filter (fun item => id item <> id session) prev).
  assert (Hsub : take 14 others `sublist_of` prev).
  { etransitivity; [apply sublist_take | apply sublist_filter]. }
  assert (Hne : forall x, x ∈ take 14 others -> id x <> id session).
  { intros x Hx. apply subseteq_take in Hx.
    by apply list_elem_of_filter in Hx as [? _]. }
  split; [done|]. split; [cbn [length]; rewrite length_take; lia|].
  split; [done|]. split; [done|]. split.
  - intros Hlen x Hx Hid. apply list_elem_of_further.
    rewrite take_ge; [by apply list_elem_of_filter|].
    pose proof (length_filter (fun item => id item <> id session) prev).
    subst others. lia.
  - intros Hnd. cbn [List.map]. apply NoDup_cons. split.
    + intros Hin. apply list_elem_of_In, in_map_iff in Hin as (x & Hid & Hx).
      by apply (Hne x); [apply list_elem_of_In|].
    + eapply sublist_NoDup; [exact Hnd|].
      change (List.map id) with (fmap (M:=list) id). by apply fmap_sublist.
Qed.

(** X16: saving a session that is already first changes nothing: saving
    the same session twice is saving it once; and deleting a session
    right after saving it leaves the first 14 of the other sessions. *)
Theorem saveToHistory_again (session : StudyBuddyResponse)
    (prev : list StudyBuddyResponse) :
  saveToHistory session (saveToHistory session prev)
  = saveToHistory session prev
  /\ deleteFromHistory (id session) (saveToHistory session prev)
     = take 14 (deleteFromHistory (id session) prev).
Proof.
  assert (Hflip : forall l : list StudyBuddyResponse,
    filter (fun item => id session <> id item) l
    = filter (fun item => id item <> id session) l).
  { intros l. apply list_filter_iff. intros x. split; congruence. }
  set (others := filter (fun item => id item <> id session) prev).
  assert (Hkeep : filter (fun item => id item <> id session) (take 14 others)
                  = take 14 others).
  { apply filter_all, Forall_take, others_Forall. }
  split.
  - rewrite !saveToHistory_cons. fold others.
    rewrite filter_cons_False by (intros H; by apply H).
    rewrite Hkeep, take_take. reflexivity.
  - unfold deleteFromHistory. rewrite !Hflip, saveToHistory_cons.
    fold others.
    rewrite filter_cons_False by (intros H; by apply H).
    exact Hkeep.
Qed.

(** X17: [deleteFromHistory] removes every session with the given id and
    no other, keeps the order of the rest, changes nothing when no
    session has that id, and deleting twice is deleting once. *)
Theorem deleteFromHistory_removes (i : list N)
    (prev : list StudyBuddyResponse) :
  let h := deleteFromHistory i prev in
  (forall x, x ∈ h <-> x ∈ prev /\ id x <> i)
  /\ h `sublist_of` prev
  /\ (i ∉ List.map id prev -> h = prev)
  /\ deleteFromHistory i h = h.
Proof.
  intros h. subst h. unfold deleteFromHistory. split; [|split; [|split]].
  - intros x. rewrite list_elem_of_filter. split; intros [? ?]; split;
      congruence.
  - apply sublist_filter.
  - intros Hnot. apply filter_all, Forall_forall. intros x Hx Heq.
    apply Hnot. rewrite Heq.
    by apply list_elem_of_In, in_map, list_elem_of_In.
  - apply filter_all, Forall_forall. intros x Hx.
    by apply list_elem_of_filter in Hx as [? _].
Qed.

Lemma saveToHistory_upsert_witness :
  List.map id
    (saveToHistory (Scenario.session "b" "Cells, again")
       [ Scenario.session "a" "Atoms"; Scenario.session "b" "Cells" ])
  = [ js "b"; js "a" ]
  /\ NoDup (List.map id
              (saveToHistory (Scenario.session "b" "Cells, again")
                 [ Scenario.session "a" "Atoms";
                   Scenario.session "b" "Cells" ])).
Proof.
  split; [reflexivity|].
  destruct (saveToHistory_upsert (Scenario.session "b" "Cells, again")
              [ Scenario.session "a" "Atoms"; Scenario.session "b" "Cells" ])
    as (_ & _ & _ & _ & _ & Hnd).
  apply Hnd. apply (bool_decide_unpack _). vm_compute. exact I.
Defined.

Lemma deleteFromHistory_removes_witness :
  deleteFromHistory (js "c")
    [ Scenario.session "a" "Atoms"; Scenario.session "b" "Cells" ]
  = [ Scenario.session "a" "Atoms"; Scenario.session "b" "Cells" ].
Proof.
  destruct (deleteFromHistory_removes (js "c")
              [ Scenario.session "a" "Atoms"; Scenario.session "b" "Cells" ])
    as (_ & _ & Hsame & _).
  apply Hsame. apply (bool_decide_unpack _). vm_compute. exact I.
Defined.

End SessionHistory.

(** ** The daily limit over a day, and the exported file name *)

Section DayAndFile.

Import App History.

Lemma sessions_count (today : list N) (n : nat) (u : Usage) :
  lastDate u = today ->
  sessions today n u
  = {| count := count u + Z.of_nat n; lastDate := today |}.
Proof.
  intros Hd. unfold sessions. induction n as [|n IH].
  - simpl. destruct u as [c d]. simpl in *. subst. f_equal. lia.
  - simpl. rewrite IH. unfold incrementUsage. simpl.
    rewrite bool_decide_eq_true_2 by done. f_equal. lia.
Qed.

Lemma initDailyUsage_today (saved : option Usage) (today : list N) :
  lastDate (initDailyUsage saved today) = today.
Proof.
  unfold initDailyUsage. destruct saved as [u|]; [|done].
  case_bool_decide; done.
Qed.

(** X18: on a day on which the application was loaded with no usage
    stored for that day, exactly five sessions can be started: after [n]
    completed sessions [checkLimit] refuses the next one if and only if
    [n] is at least 5. With [c] sessions already stored for the day it
    refuses if and only if [c + n] is at least 5. *)
Theorem sessions_per_day (today : list N) (saved : option Usage) (n : nat)
    (st : State) :
  dailyUsage st = sessions today n (initDailyUsage saved today) ->
  ((checkLimit today st).1 = false
   <-> 5 <= count (initDailyUsage saved today) + Z.of_nat n)
  /\ (match saved with
      | Some u => lastDate u <> today
      | None => True
      end ->
      ((checkLimit today st).1 = false <-> (5 <= n)%nat)).
Proof.
  intros Hu.
  rewrite (sessions_count today n _ (initDailyUsage_today saved today))
    in Hu.
  assert (Hmain : (checkLimit today st).1 = false
    <-> 5 <= count (initDailyUsage saved today) + Z.of_nat n).
  { unfold checkLimit. rewrite Hu. simpl.
    rewrite bool_decide_eq_true_2 by done. unfold DAILY_LIMIT. simpl.
    destruct (Z.leb_spec 5 (count (initDailyUsage saved today) + Z.of_nat n));
      simpl; split; (done || lia). }
  split; [exact Hmain|].
  intros Hstale. rewrite Hmain.
  assert (count (initDailyUsage saved today) = 0) as ->; [|lia].
  unfold initDailyUsage. destruct saved as [u|]; [|done].
  by rewrite bool_decide_eq_false_2.
Qed.

Lemma sessions_per_day_witness :
  (checkLimit Sample.today
     (Sample.atRest
        (sessions Sample.today 5
           (initDailyUsage
              (Some {| count := 5; lastDate := Sample.yesterday |})
              Sample.today)))).1 = false.
Proof.
  apply (proj2 (sessions_per_day Sample.today
                  (Some {| count := 5; lastDate := Sample.yesterday |}) 5
                  (Sample.atRest _) eq_refl));
    [discriminate | lia].
Defined.

Lemma replaceSpaces_noSpace (s : list N) :
  forall inRun, noSpace (replaceSpaces inRun s).
Proof.
  unfold noSpace. induction s as [|c s IH]; intros inRun; simpl;
    [constructor|].
  destruct (isSpace c) eqn:Hc.
  - destruct inRun; [apply IH|]. constructor; [reflexivity | apply IH].
  - constructor; [exact Hc | apply IH].
Qed.

Lemma replaceSpaces_length (s : list N) :
  forall inRun, (length (replaceSpaces inRun s) <= length s)%nat.
Proof.
  induction s as [|c s IH]; intros inRun; simpl; [lia|].
  destruct (isSpace c), inRun; simpl;
    try (specialize (IH true); lia); specialize (IH false); lia.
Qed.

Lemma replaceSpaces_same (s : list N) :
  noSpace s -> forall inRun, replaceSpaces inRun s = s.
Proof.
  induction 1 as [|c s Hc _ IH]; intros inRun; simpl; [done|].
  by rewrite Hc, IH.
Qed.

(** X19: the name under which the study guide is saved contains no white
    space, whatever the title; it is at most 16 characters longer than
    the title; and a title without white space is kept as it is, followed
    by ["_Study_Guide.doc"]. *)
Theorem downloadName_noSpace (session : StudyBuddyResponse) :
  noSpace (downloadName session)
  /\ (length (downloadName session) <= length (title session) + 16)%nat
  /\ (noSpace (title session) ->
      downloadName session = title session ++ js "_Study_Guide.doc").
Proof.
  unfold downloadName. split; [|split].
  - apply Forall_app. split; [apply replaceSpaces_noSpace|].
    unfold noSpace. vm_compute. repeat constructor.
  - rewrite length_app.
    pose proof (replaceSpaces_length (title session) false).
    change (length (js "_Study_Guide.doc")) with 16%nat. lia.
  - intros H. by rewrite replaceSpaces_same.
Qed.

Lemma downloadName_noSpace_witness :
  downloadName (Scenario.session "a" "Atoms")
  = js "Atoms_Study_Guide.doc"
  /\ downloadName (Scenario.session "b" "Cell  division notes")
     = js "Cell_division_notes_Study_Guide.doc".
Proof.
  split; [|reflexivity].
  destruct (downloadName_noSpace (Scenario.session "a" "Atoms"))
    as (_ & _ & Hsame).
  apply Hsame. unfold noSpace. vm_compute. repeat constructor.
Defined.

End DayAndFile.

(** ** Knowledge Dash on too little material *)

Section TooFewPairs.

Import Dash.

Variable data : Props.

Hypothesis few : (length (allPairs data) < 2)%nat.

Lemma generateQuestion_few (fuel : nat) (rnd : nat -> Z) :
  generateQuestion fuel data rnd = Returned None.
Proof.
  unfold generateQuestion.
  destruct (Nat.ltb_spec (length (allPairs data)) 2); [done | lia].
Qed.

Lemma step_few (fuel : nat) (ev : Event) (st : State) :
  currentQuestion st = None ->
  timeouts st = [] ->
  exists st',
    step fuel data ev st = Returned st'
    /\ currentQuestion st' = None /\ timeouts st' = []
    /\ (score st' = score st \/ score st' = 0)
    /\ (lives st' = lives st \/ lives st' = 3).
Proof.
  intros Hq Hts. destruct ev as [rnd|answer|rnd|]; simpl.
  - unfold startGame. rewrite generateQuestion_few. simpl.
    eexists. split; [reflexivity|]. simpl. auto.
  - unfold handleAnswer. rewrite Hq. eexists. split; [reflexivity|]. auto.
  - unfold settle. rewrite Hts. eexists. split; [reflexivity|]. auto.
  - eexists. split; [reflexivity|]. unfold tick.
    destruct (gameState st); auto.
    destruct (0 <? timeLeft st); auto.
    destruct (timeLeft st <=? 1); simpl; auto.
Qed.

(** X20: when the material gives fewer than two pairs, no run of the
    component throws or hangs, and in every state it reaches there is no
    question, no settle callback is pending, the score is 0 and the lives
    are 3: answers are ignored and a started round ends by the clock
    only. *)
Theorem too_few_pairs (fuel : nat) (evs : list Event) :
  exists st,
    run fuel data evs initial = Returned st
    /\ currentQuestion st = None /\ timeouts st = []
    /\ score st = 0 /\ lives st = 3.
Proof.
  assert (Hgen : forall st,
    currentQuestion st = None -> timeouts st = [] ->
    score st = 0 -> lives st = 3 ->
    exists st', run fuel data evs st = Returned st'
      /\ currentQuestion st' = None /\ timeouts st' = []
      /\ score st' = 0 /\ lives st' = 3).
  { induction evs as [|ev evs' IH]; intros st Hq Hts Hsc Hl; simpl.
    - exists st. done.
    - destruct (step_few fuel ev st Hq Hts)
        as (st1 & -> & Hq1 & Hts1 & Hsc1 & Hl1).
      simpl. apply IH; try done; lia. }
  apply Hgen; reflexivity.
Qed.

End TooFewPairs.

Lemma too_few_pairs_witness :
  exists st,
    Dash.run 0 {| Dash.flashcards := []; Dash.clean_notes := [] |}
      [ Dash.Start Sample.pickA; Dash.Answer true; Dash.Tick ]
      Dash.initial = Dash.Returned st
    /\ Dash.currentQuestion st = None /\ Dash.timeouts st = []
    /\ Dash.score st = 0 /\ Dash.lives st = 3.
Proof.
  apply (too_few_pairs {| Dash.flashcards := []; Dash.clean_notes := [] |}).
  simpl. lia.
Defined.

(** ** Knowledge Dash: a wrong answer and its settle delay *)

Section WrongAnswer.

Import Dash.

Variable data : Props.






End WrongAnswer.

Section WrongAnswerSamples.

Import Dash.



End WrongAnswerSamples.
